(** * The concept tree explorer and the merge-operation specification holder

    A shallow embedding of
    - [ConceptTreeExplorer.tsx] (legend-pure-ide): the context menu of a
      concept node, the node container's click handlers and drag source, the
      callbacks the explorer hands to the tree view, and "Collapse all";
    - [TemporaryPureMergeOperationFunctionSpecification.java] (m3 parser).

    Node objects are JavaScript objects that the tree's node collection, the
    selection and the callbacks all share, so nodes live in a heap of objects
    and are passed around by reference.  Calls that leave the component (to
    the editor store, the application store, the tree state, the browser
    window) are recorded, oldest first, in the world's call log. *)

From stdpp Require Import base option list strings functions gmap fin_maps.

Local Open Scope string_scope.

(** ** Data model *)

(** [ConceptType]: the enum of type tags, declared in [models/ConceptTree].
    Only its members' names appear in the explorer, so their string values
    are kept abstract. *)
Module ConceptType.

Record t := {
  PACKAGE : string;
  CLASS : string;
  ASSOCIATION : string;
  PROPERTY : string;
  FUNCTION : string
}.

(** An enum's members are different values. *)
Definition distinct (e : t) : Prop :=
  NoDup [PACKAGE e; CLASS e; ASSOCIATION e; PROPERTY e; FUNCTION e].

End ConceptType.

(** The attribute record of a concept ([node.data.li_attr]).  The explorer
    tells the classes apart with [instanceof]; element and property
    attributes carry the file, line and column of the concept's source. *)
Inductive ConceptAttribute :=
  | ElementConceptAttribute (pureId pureType file line column : string)
  | PropertyConceptAttribute (pureId pureType file line column : string)
  | OtherConceptAttribute (pureId pureType : string).

Definition pureId (a : ConceptAttribute) : string :=
  match a with
  | ElementConceptAttribute i _ _ _ _ => i
  | PropertyConceptAttribute i _ _ _ _ => i
  | OtherConceptAttribute i _ => i
  end.

Definition pureType (a : ConceptAttribute) : string :=
  match a with
  | ElementConceptAttribute _ t _ _ _ => t
  | PropertyConceptAttribute _ t _ _ _ => t
  | OtherConceptAttribute _ t => t
  end.

Record ConceptNode := { li_attr : ConceptAttribute; text : string }.

Record ConceptTreeNode := {
  id : string;
  label : string;
  data : ConceptNode;
  childrenIds : option (list string);
  isOpen : bool;
  isLoading : bool;
  isSelected : bool
}.

(** [node.isOpen = false] *)
Definition set_isOpen (b : bool) (n : ConceptTreeNode) : ConceptTreeNode :=
  {| id := id n; label := label n; data := data n;
     childrenIds := childrenIds n; isOpen := b;
     isLoading := isLoading n; isSelected := isSelected n |}.

(** [node.isSelected = b] *)
Definition set_isSelected (b : bool) (n : ConceptTreeNode)
  : ConceptTreeNode :=
  {| id := id n; label := label n; data := data n;
     childrenIds := childrenIds n; isOpen := isOpen n;
     isLoading := isLoading n; isSelected := b |}.

(** A reference to a node object. *)
Definition ref := positive.

Record TreeData := {
  rootIds : list string;
  nodes : gmap string ref
}.

(** A JavaScript number.  The explorer only obtains numbers from
    [Number.parseInt(s, radix)], whose parsing is the platform's: the number
    is kept as that application, uninterpreted. *)
Inductive JSNumber :=
  | Number_parseInt (s : string) (radix : nat).

Record FileCoordinate := {
  coordFile : string;
  coordLine : JSNumber;
  coordColumn : JSNumber
}.

Record Client := { baseUrl : string; mode : string }.

(** The error value a rejected promise carries. *)
Definition Error := string.

(** Calls that leave the component, each named after the function called. *)
Inductive Call :=
  | NotifyUnsupportedFeature (feature : string)
  | AlertIllegalUnhandledError (error : Error)
  | ExecuteTests (path : string)
  | WindowOpen (url target : string)
  | SetSelectedNode (node : option ref)
  | OpenNode (node : ref)
  | ExpandNode (node : ref)
  | RefreshTree
  | RefreshTreeData
  | RevealPath (file : string) (forceOpenExplorerPanel : bool)
               (coordinate : FileCoordinate).

(** The calls that start an asynchronous operation of a store (a mobx flow,
    taken through [flowResult]). *)
Definition isAsync (c : Call) : bool :=
  match c with
  | ExecuteTests _ | OpenNode _ | ExpandNode _ | RefreshTreeData => true
  | _ => false
  end.

(** The calls that load tree data. *)
Definition isFetch (c : Call) : bool :=
  match c with
  | OpenNode _ | ExpandNode _ | RefreshTreeData => true
  | _ => false
  end.

Record World := {
  heap : ref -> ConceptTreeNode;
  treeData : TreeData;
  selectedNode : option ref;
  client : Client;
  calls : list Call
}.

(** ** Commands: state passing over the world *)

Definition M (A : Type) : Type := World -> A * World.

Global Instance M_ret : MRet M := fun A (a : A) w => (a, w).

Global Instance M_bind : MBind M :=
  fun A B (k : A -> M B) (m : M A) w => let (a, w') := m w in k a w'.

Definition exec {A} (m : M A) (w : World) : World := snd (m w).
Definition eval {A} (m : M A) (w : World) : A := fst (m w).

Definition read (node : ref) : M ConceptTreeNode :=
  fun w => (heap w node, w).

Definition write (node : ref) (f : ConceptTreeNode -> ConceptTreeNode)
  : M unit :=
  fun w =>
    (tt, {| heap := <[node := f (heap w node)]> (heap w);
            treeData := treeData w; selectedNode := selectedNode w;
            client := client w; calls := calls w |}).

Definition call (c : Call) : M unit :=
  fun w =>
    (tt, {| heap := heap w; treeData := treeData w;
            selectedNode := selectedNode w; client := client w;
            calls := calls w ++ [c] |}).

(** ** Promises

    How a promise ends.  An asynchronous operation is run to the point where
    its promise settles (if it does); what happens in between is part of the
    operation. *)
Inductive Settlement :=
  | Fulfilled
  | Rejected (error : Error)
  | Pending.

(** [promise.catch(onRejected)], where [onRejected] returns normally *)
Definition catch (promise : Settlement) (onRejected : Error -> M unit)
  : M Settlement :=
  match promise with
  | Rejected error => onRejected error;; mret Fulfilled
  | Fulfilled => mret Fulfilled
  | Pending => mret Pending
  end.

(** What an asynchronous operation of a store does once it is started: any
    change of the world, ending in any settlement. *)
Definition Flow := Call -> M Settlement.

(** ** The stores the explorer calls

    None of them is part of the explorer.  A call is logged; an asynchronous
    one then runs its flow. *)

Module applicationStore.

Definition notifyUnsupportedFeature (feature : string) : M unit :=
  call (NotifyUnsupportedFeature feature).

Definition alertIllegalUnhandledError (error : Error) : M unit :=
  call (AlertIllegalUnhandledError error).

End applicationStore.

Module editorStore.

Definition executeTests (flow : Flow) (path : string) : M Settlement :=
  call (ExecuteTests path);; flow (ExecuteTests path).

Definition client : M Client := fun w => (client w, w).

End editorStore.

Module directoryTreeState.

Definition revealPath (file : string) (forceOpenExplorerPanel : bool)
    (coordinate : FileCoordinate) : M unit :=
  call (RevealPath file forceOpenExplorerPanel coordinate).

End directoryTreeState.

Module treeState.

(** Modelled from the spec: the tree state's [getTreeData], which is not in
    the explorer's file; it hands out "the authoritative mapping from node id
    to node record, owned by the external controller/store". *)
Definition getTreeData : M TreeData := fun w => (treeData w, w).

(** Modelled from the spec: the tree state's [setSelectedNode], which is not
    in the explorer's file.  The spec keeps the selection in the nodes:
    "[isOpen], [isLoading], [isSelected]: transient UI-only booleans";
    "a single click selects the node", and "Collapse all" is to "clear
    selection".  So after the call a node object has its [isSelected] flag
    set exactly when it is the node given, and none has when no node is
    given; the tree state remembers the node. *)
Definition setSelectedNode (node : option ref) : M unit :=
  fun w =>
    (tt, {| heap :=
              fun object =>
                set_isSelected
                  match node with
                  | Some selected => bool_decide (object = selected)
                  | None => false
                  end
                  (heap w object);
            treeData := treeData w; selectedNode := node;
            client := client w;
            calls := calls w ++ [SetSelectedNode node] |}).

(** Modelled from the spec: the tree state's [refreshTree], which is not in
    the explorer's file; it asks for the tree to be drawn again, the spec
    gives it no effect on a node. *)
Definition refreshTree : M unit := call RefreshTree.

Definition openNode (flow : Flow) (node : ref) : M Settlement :=
  call (OpenNode node);; flow (OpenNode node).

Definition expandNode (flow : Flow) (node : ref) : M Settlement :=
  call (ExpandNode node);; flow (ExpandNode node).

Definition refreshTreeData (flow : Flow) : M Settlement :=
  call RefreshTreeData;; flow RefreshTreeData.

End treeState.

Module window.

Definition open (url target : string) : M unit :=
  call (WindowOpen url target).

End window.

(** ** ConceptExplorerContextMenu *)

(** The click handlers the context menu declares. *)
Inductive Handler :=
  | rename
  | renamePackage
  | renameProperty
  | runTests
  | move
  | viewSource
  | serviceJSON.

Global Instance Handler_eq_dec : EqDecision Handler.
Proof. solve_decision. Defined.

(** [<div className="explorer__context-menu__item" onClick={h}>text</div>] *)
Record MenuItem := {
  itemText : string;
  onClick : Handler
}.

(** [{condition && element}] renders the element or nothing *)
Definition when {A} (condition : bool) (element : A) : list A :=
  if condition then [element] else [].

Section ConceptExplorerContextMenu.

Variable ConceptType : ConceptType.t.
Variable flow : Flow.

Local Abbreviation PACKAGE := (ConceptType.PACKAGE ConceptType).
Local Abbreviation PROPERTY := (ConceptType.PROPERTY ConceptType).
Local Abbreviation FUNCTION := (ConceptType.FUNCTION ConceptType).

(** The children of the menu's [div], top to bottom, for a type tag. *)
Definition menuItems (nodeType : string) : list MenuItem :=
  when (String.eqb nodeType PACKAGE)
       {| itemText := "Rename"; onClick := renamePackage |}
  ++ when (String.eqb nodeType PROPERTY)
       {| itemText := "Rename"; onClick := renameProperty |}
  ++ when (negb (String.eqb nodeType PACKAGE)
           && negb (String.eqb nodeType PROPERTY))
       {| itemText := "Rename"; onClick := rename |}
  ++ when (String.eqb nodeType PACKAGE)
       {| itemText := "Run tests"; onClick := runTests |}
  ++ when (negb (String.eqb nodeType PACKAGE)
           && negb (String.eqb nodeType PROPERTY))
       {| itemText := "Move"; onClick := move |}
  ++ when (String.eqb nodeType FUNCTION)
       {| itemText := "Service (JSON)"; onClick := serviceJSON |}
  ++ when (negb (String.eqb nodeType PACKAGE))
       {| itemText := "View Source"; onClick := viewSource |}.

(** The actions of a menu: the handlers of its items. *)
Definition menuActions (nodeType : string) : list Handler :=
  map onClick (menuItems nodeType).

(** The rename entries of a menu. *)
Definition isRename (h : Handler) : bool :=
  match h with
  | rename | renamePackage | renameProperty => true
  | _ => false
  end.

Definition renameEntries (nodeType : string) : list MenuItem :=
  filter (fun item => isRename (onClick item) = true) (menuItems nodeType).

(** The component: the tag is read from the node when the menu is drawn. *)
Definition ConceptExplorerContextMenu (node : ref) : M (list MenuItem) :=
  n ← read node;
  mret (menuItems (pureType (li_attr (data n)))).

(** What a handler of the menu of [node] does when clicked. *)
Definition handle (node : ref) (viewConceptSource : ref -> M unit)
    (h : Handler) : M unit :=
  match h with
  | rename => applicationStore.notifyUnsupportedFeature "Rename"
  | renamePackage => applicationStore.notifyUnsupportedFeature "Rename package"
  | renameProperty =>
      applicationStore.notifyUnsupportedFeature "Rename property"
  | runTests =>
      n ← read node;
      editorStore.executeTests flow (pureId (li_attr (data n)));;
      mret tt
  | move => applicationStore.notifyUnsupportedFeature "Move file"
  | viewSource => viewConceptSource node
  | serviceJSON =>
      n ← read node;
      c ← editorStore.client;
      window.open
        (baseUrl c ++ "/execute?func=" ++ pureId (li_attr (data n))
         ++ "&mode=" ++ mode c)
        "_blank"
  end.

End ConceptExplorerContextMenu.

(** ** ConceptTreeNodeContainer *)

Module CONCEPT_TREE_DND_TYPE.

Inductive t :=
  | UNSUPPORTED
  | CLASS.

(** The enum's string values. *)
Definition value (d : t) : string :=
  match d with
  | UNSUPPORTED => "UNSUPPORTED"
  | CLASS => "CLASS"
  end.

End CONCEPT_TREE_DND_TYPE.

(** The drag source specification handed to [useDrag]. *)
Record DragSpec := {
  type : CONCEPT_TREE_DND_TYPE.t;
  item : ConceptNode
}.

Section ConceptTreeNodeContainer.

Variable ConceptType : ConceptType.t.

(** The props: the node, the tree view's optional [onNodeSelect], and the
    explorer's callbacks in [innerProps]. *)
Variable node : ref.
Variable onNodeSelect : option (ref -> M unit).
Variables onNodeOpen onNodeExpand onNodeCompress : ref -> M unit.

(** [[PACKAGE, CLASS, ASSOCIATION].includes(node.data.li_attr.pureType)] *)
Definition isExpandable (n : ConceptTreeNode) : bool :=
  existsb (String.eqb (pureType (li_attr (data n))))
    [ConceptType.PACKAGE ConceptType; ConceptType.CLASS ConceptType;
     ConceptType.ASSOCIATION ConceptType].

(** [onNodeSelect?.(node)]; the event itself is not modelled *)
Definition selectNode : M unit :=
  match onNodeSelect with
  | Some select => select node
  | None => mret tt
  end.

Definition toggleExpansion : M unit :=
  n ← read node;
  if isLoading n then mret tt
  else if isOpen n then onNodeCompress node
  else onNodeExpand node.

(** [isExpandable] is the value computed when the container was drawn. *)
Definition onDoubleClick (isExpandable : bool) : M unit :=
  n ← read node;
  if isLoading n then mret tt
  else if isExpandable then toggleExpansion
  else onNodeOpen node.

Definition dragSpec (n : ConceptTreeNode) : DragSpec :=
  {| type :=
       if String.eqb (pureType (li_attr (data n))) "Class"
       then CONCEPT_TREE_DND_TYPE.CLASS
       else CONCEPT_TREE_DND_TYPE.UNSUPPORTED;
     item := data n |}.

(** A double click on the container as it was last drawn. *)
Definition doubleClick : M unit :=
  n ← read node;
  onDoubleClick (isExpandable n).

End ConceptTreeNodeContainer.

(** ** FileExplorerTree *)

(** [isNonNullable], from the shared library: neither [null] nor
    [undefined]. *)
Definition isNonNullable {A} (value : option A) : bool :=
  match value with
  | Some _ => true
  | None => false
  end.

(** [array.filter(isNonNullable)]: the guard narrows the element type, so
    the entries kept are handed on as values. *)
Fixpoint filter_isNonNullable {A} (array : list (option A)) : list A :=
  match array with
  | [] => []
  | Some value :: rest => value :: filter_isNonNullable rest
  | None :: rest => filter_isNonNullable rest
  end.

Section FileExplorerTree.

Variable flow : Flow.

(** [editorStore.conceptTreeState.getTreeData()], taken when the component
    is drawn; the callbacks below close over it. *)
Variable treeData : TreeData.

Definition onNodeSelect (node : ref) : M unit :=
  treeState.setSelectedNode (Some node).

Definition onNodeOpen (node : ref) : M Settlement :=
  promise ← treeState.openNode flow node;
  catch promise applicationStore.alertIllegalUnhandledError.

Definition onNodeExpand (node : ref) : M Settlement :=
  promise ← treeState.expandNode flow node;
  catch promise applicationStore.alertIllegalUnhandledError.

Definition onNodeCompress (node : ref) : M unit :=
  write node (set_isOpen false);;
  treeState.refreshTree.

Definition getChildNodes (node : ref) : M (list ref) :=
  n ← read node;
  match isLoading n, childrenIds n with
  | false, Some ids =>
      mret (filter_isNonNullable
              (map (fun childId => nodes treeData !! childId) ids))
  | _, _ => mret []
  end.

Definition deselectTreeNode : M unit :=
  treeState.setSelectedNode None.

Definition viewConceptSource (node : ref) : M unit :=
  n ← read node;
  match li_attr (data n) with
  | ElementConceptAttribute _ _ file line column
  | PropertyConceptAttribute _ _ file line column =>
      directoryTreeState.revealPath file true
        {| coordFile := file;
           coordLine := Number_parseInt line 10;
           coordColumn := Number_parseInt column 10 |}
  | OtherConceptAttribute _ _ => mret tt
  end.

(** The callbacks as the tree view hands them to a node container, which
    drops the promise of an open or an expand. *)
Definition innerProps_onNodeOpen (node : ref) : M unit :=
  onNodeOpen node;; mret tt.

Definition innerProps_onNodeExpand (node : ref) : M unit :=
  onNodeExpand node;; mret tt.

End FileExplorerTree.

(** ** ConceptTreeExplorer *)

(** [map.forEach(callback)] on the values of a [Map].  A JavaScript [Map] is
    visited in insertion order, which a [gmap] does not keep; the entries
    are visited in the order [map_to_list] gives them. *)
Definition Map_forEach {V} (map : gmap string V) (callback : V -> M unit)
  : M unit :=
  foldr (fun entry rest => callback entry.2;; rest) (mret tt)
        (map_to_list map).

Section ConceptTreeExplorer.

Variable flow : Flow.

Definition refreshTree : M Settlement :=
  promise ← treeState.refreshTreeData flow;
  catch promise applicationStore.alertIllegalUnhandledError.

Definition collapseTree : M unit :=
  treeData ← treeState.getTreeData;
  Map_forEach (nodes treeData) (fun node => write node (set_isOpen false));;
  treeState.setSelectedNode None;;
  treeState.refreshTree.

End ConceptTreeExplorer.

(** ** TemporaryPureMergeOperationFunctionSpecification *)

Module Java.

(** Modelled from the spec: [SourceInformation], an m4 class that is not
    among the sources; "a source-location record (file, line, column, or
    equivalent)". *)
Record SourceInformation := {
  sourceId : string;
  line : nat;
  column : nat
}.

(** Modelled from the spec: [CoreInstance], an m4 interface that is not among
    the sources; "an opaque handle to a validation expression". *)
Definition CoreInstance := positive.

Inductive Access :=
  | Public
  | PackagePrivate.

(** A field declaration: its modifiers and its name. *)
Record FieldDecl := {
  fieldAccess : Access;
  fieldFinal : bool;
  fieldName : string
}.

(** A constructor or method declaration. *)
Record MemberDecl := {
  memberAccess : Access;
  memberStatic : bool;
  memberConstructor : bool;
  memberName : string
}.

Inductive Field :=
  | sourceInformation_
  | validationExpression_.

(** [public SourceInformation sourceInformation;]
    [public CoreInstance validationExpression;] *)
Definition declaration (f : Field) : FieldDecl :=
  match f with
  | sourceInformation_ =>
      {| fieldAccess := Public; fieldFinal := false;
         fieldName := "sourceInformation" |}
  | validationExpression_ =>
      {| fieldAccess := Public; fieldFinal := false;
         fieldName := "validationExpression" |}
  end.

(** The constructor and the methods the class declares. *)
Definition members : list MemberDecl :=
  [ {| memberAccess := PackagePrivate; memberStatic := false;
       memberConstructor := true;
       memberName := "TemporaryPureMergeOperationFunctionSpecification" |};
    {| memberAccess := Public; memberStatic := true;
       memberConstructor := false; memberName := "build" |} ].

(** An instance: its two fields. *)
Record TemporaryPureMergeOperationFunctionSpecification := {
  sourceInformation : SourceInformation;
  validationExpression : CoreInstance
}.

(** The constructor. *)
Definition new (sourceInformation : SourceInformation)
    (validationExpression : CoreInstance)
  : TemporaryPureMergeOperationFunctionSpecification :=
  {| sourceInformation := sourceInformation;
     validationExpression := validationExpression |}.

Definition build (sourceInformation : SourceInformation)
    (validationExpression : CoreInstance)
  : TemporaryPureMergeOperationFunctionSpecification :=
  new sourceInformation validationExpression.

(** A value that can be stored in a field. *)
Inductive Value :=
  | VSourceInformation (s : SourceInformation)
  | VCoreInstance (c : CoreInstance).

Definition get (f : Field)
    (o : TemporaryPureMergeOperationFunctionSpecification) : Value :=
  match f with
  | sourceInformation_ => VSourceInformation (sourceInformation o)
  | validationExpression_ => VCoreInstance (validationExpression o)
  end.

(** Where the code that uses the class lives. *)
Inductive Origin :=
  | SamePackage
  | OtherPackage.

Definition accessible (a : Access) (from : Origin) : bool :=
  match a, from with
  | Public, _ => true
  | PackagePrivate, SamePackage => true
  | PackagePrivate, OtherPackage => false
  end.

(** Java lets code outside the constructor assign a field that it can reach
    and that is not [final]. *)
Definition assignable (from : Origin) (f : Field) : bool :=
  accessible (fieldAccess (declaration f)) from
  && negb (fieldFinal (declaration f)).

(** [o.f = v] in code that uses the class: [None] when the compiler rejects
    the assignment (a field out of reach, a final field, a value of the
    wrong type). *)
Definition assign (from : Origin) (f : Field) (v : Value)
    (o : TemporaryPureMergeOperationFunctionSpecification)
  : option TemporaryPureMergeOperationFunctionSpecification :=
  if assignable from f then
    match f, v with
    | sourceInformation_, VSourceInformation s =>
        Some {| sourceInformation := s;
                validationExpression := validationExpression o |}
    | validationExpression_, VCoreInstance c =>
        Some {| sourceInformation := sourceInformation o;
                validationExpression := c |}
    | _, _ => None
    end
  else None.

(** Immutability: once an instance is built, no code that uses the class
    can change a field of it. *)
Definition immutable : Prop :=
  forall from f v o o', assign from f v o = Some o' -> o' = o.

End Java.

(** ** The specification's wording, to compare the code with *)

Module Spec.

(** "filtering out any id that no longer resolves" *)
Definition resolves (collection : gmap string ref) (childId : string)
  : Prop :=
  is_Some (collection !! childId).

(** "a node's visible children are exactly [childrenIds] mapped through the
    node collection, filtering out any id that no longer resolves; if the
    node is [Loading] or has no [childrenIds], it has no visible
    children" *)
Definition visibleChildren (collection : gmap string ref)
    (n : ConceptTreeNode) : list ref :=
  if isLoading n then []
  else
    match childrenIds n with
    | None => []
    | Some ids => omap (fun childId => collection !! childId) ids
    end.

(** "Rename package", "Run tests", ...: the name the specification gives to
    the action behind each handler of the context menu. *)
Definition actionName (h : Handler) : string :=
  match h with
  | rename => "Rename"
  | renamePackage => "Rename package"
  | renameProperty => "Rename property"
  | runTests => "Run tests"
  | move => "Move"
  | viewSource => "View Source"
  | serviceJSON => "Service (JSON)"
  end.

End Spec.

(** ** Sample values *)

Module Sample.

(** Tags as the server could send them. *)
Definition conceptType : ConceptType.t :=
  {| ConceptType.PACKAGE := "Package";
     ConceptType.CLASS := "Class";
     ConceptType.ASSOCIATION := "Association";
     ConceptType.PROPERTY := "Property";
     ConceptType.FUNCTION := "ConcreteFunctionDefinition" |}.

Definition mkNode (name : string) (attribute : ConceptAttribute)
    (children : option (list string)) (open loading : bool)
  : ConceptTreeNode :=
  {| id := name; label := name;
     data := {| li_attr := attribute; text := name |};
     childrenIds := children; isOpen := open; isLoading := loading;
     isSelected := false |}.

Definition model : ConceptTreeNode :=
  mkNode "model" (OtherConceptAttribute "model" "Package")
         (Some ["model::Person"; "model::gone"; "model::hello"]) true false.

Definition person : ConceptTreeNode :=
  mkNode "model::Person"
         (ElementConceptAttribute "model::Person" "Class"
            "/model/person.pure" "3" "7")
         (Some []) true false.

Definition hello : ConceptTreeNode :=
  mkNode "model::hello"
         (ElementConceptAttribute "model::hello__String_1_"
            "ConcreteFunctionDefinition" "/model/hello.pure" "12" "1")
         None false false.

Definition busy : ConceptTreeNode :=
  mkNode "busy" (OtherConceptAttribute "busy" "Package")
         (Some ["model::Person"]) false true.

(** The node objects: 1 is [model], 2 is [person], 3 is [hello], every other
    reference is [busy]. *)
Definition objects : ref -> ConceptTreeNode :=
  <[1%positive := model]>
    (<[2%positive := person]> (<[3%positive := hello]> (fun _ => busy))).

Definition tree : TreeData :=
  {| rootIds := ["model"];
     nodes := <["model" := 1%positive]>
                (<["model::Person" := 2%positive]>
                   (<["model::hello" := 3%positive]> ∅)) |}.

Definition world : World :=
  {| heap := objects; treeData := tree; selectedNode := Some 2%positive;
     client := {| baseUrl := "http://localhost:9200"; mode := "dev" |};
     calls := [] |}.

(** The world with the node [person] selected. *)
Definition selected : World :=
  {| heap := <[2%positive := set_isSelected true person]> objects;
     treeData := tree; selectedNode := Some 2%positive;
     client := client world; calls := [] |}.

(** A store whose operations all fail. *)
Definition failing : Flow := fun _ w => (Rejected "no server", w).

Definition location : Java.SourceInformation :=
  {| Java.sourceId := "/model/person.pure"; Java.line := 3;
     Java.column := 7 |}.

Definition elsewhere : Java.SourceInformation :=
  {| Java.sourceId := "/model/person.pure"; Java.line := 9;
     Java.column := 1 |}.

End Sample.

(** ** Drawing a node container *)

(** [clsx(base, {name: condition}, ...)]: the base class names, then each
    name whose condition holds. *)
Definition clsx (base : list string) (conditional : list (string * bool))
  : list string :=
  base ++ map fst (List.filter snd conditional).

(** The [className] of a node container; [isSelectedFromContextMenu] is the
    component's state. *)
Definition containerClassName (n : ConceptTreeNode)
    (isSelectedFromContextMenu : bool) : list string :=
  clsx ["tree-view__node__container";
        "explorer__package-tree__node__container"]
       [("explorer__package-tree__node__container--selected-from-context-menu",
         negb (isSelected n) && isSelectedFromContextMenu);
        ("explorer__package-tree__node__container--selected", isSelected n)].

(** [onContextMenuOpen] and [onContextMenuClose] set the state. *)
Definition onContextMenuOpen (isSelectedFromContextMenu : bool) : bool := true.
Definition onContextMenuClose (isSelectedFromContextMenu : bool) : bool :=
  false.

Inductive ExpandIcon :=
  | FaCircleNotch
  | FaChevronDown
  | FaChevronRight
  | EmptyDiv.

(** A [div] of the expand area: what it shows, and whether it carries
    [onClick={toggleExpansion}]. *)
Record ExpandArea := {
  icon : ExpandIcon;
  togglesOnClick : bool
}.

(** The expand area of a node container, before the type icon. *)
Definition expandArea (ConceptType : ConceptType.t) (n : ConceptTreeNode)
  : list ExpandArea :=
  when (isLoading n) {| icon := FaCircleNotch; togglesOnClick := false |}
  ++ when (negb (isLoading n))
       {| icon :=
            if negb (isExpandable ConceptType n) then EmptyDiv
            else if isOpen n then FaChevronDown
            else FaChevronRight;
          togglesOnClick := true |}.

(** ** Clicks

    A click is handed to the [onClick] handlers of the element clicked and
    of the elements around it, innermost first, until a handler stops it.
    Of the elements between a node container and the explorer's inner
    [div], which belong to the tree view and context menu libraries, none is
    taken to handle the click. *)

Record MouseEvent := {
  propagationStopped : bool;
  defaultPrevented : bool
}.

Definition stopPropagation (event : MouseEvent) : MouseEvent :=
  {| propagationStopped := true; defaultPrevented := defaultPrevented event |}.

Definition preventDefault (event : MouseEvent) : MouseEvent :=
  {| propagationStopped := propagationStopped event;
     defaultPrevented := true |}.

Definition MouseEventHandler := MouseEvent -> M MouseEvent.

(** A handler that takes no notice of the event. *)
Definition plain (handler : M unit) : MouseEventHandler :=
  fun event => handler;; mret event.

Fixpoint bubble (handlers : list MouseEventHandler) (event : MouseEvent)
  : M MouseEvent :=
  match handlers with
  | [] => mret event
  | handler :: outer =>
      event' ← handler event;
      if propagationStopped event' then mret event' else bubble outer event'
  end.

Section Clicks.

Variable node : ref.
Variable onNodeSelect : option (ref -> M unit).

(** [selectNode] as the container's [onClick]:
    [event.stopPropagation(); event.preventDefault(); onNodeSelect?.(node)] *)
Definition selectNode_onClick : MouseEventHandler :=
  fun event =>
    let event := preventDefault (stopPropagation event) in
    selectNode node onNodeSelect;;
    mret event.

(** A click on the label or the type icon of a node. *)
Definition clickNode : M MouseEvent :=
  bubble [selectNode_onClick; plain deselectTreeNode]
         {| propagationStopped := false; defaultPrevented := false |}.

(** A click on the explorer's inner [div], outside every node. *)
Definition clickOutside : M MouseEvent :=
  bubble [plain deselectTreeNode]
         {| propagationStopped := false; defaultPrevented := false |}.

End Clicks.

(** ** Clicks that start asynchronous work

    A callback may start an asynchronous operation and attach a reaction to
    its promise.  What the callback does before it returns happens while the
    click is handled; the rest of the operation and the reaction come once
    the click has been handled.  A staged command does the first and yields
    the second. *)

Abbreviation Deferred := (M unit).

(** A command that leaves nothing for later. *)
Definition immediately (command : M unit) : M Deferred :=
  command;; mret (mret tt).

(** An asynchronous operation of a store in two stages: what it does when
    it is called, which yields what is left up to the settlement of its
    promise. *)
Definition StagedFlow := Call -> M (M Settlement).

(** The operation run from its call to its settlement. *)
Definition settled (staged : StagedFlow) : Flow :=
  fun c => rest ← staged c; rest.

(** [flowResult(treeState.expandNode(node)).catch(
      applicationStore.alertIllegalUnhandledError)], in stages: the call is
    made and the reaction, which sees how the promise settles, is left for
    later. *)
Definition onNodeExpand_staged (staged : StagedFlow) (node : ref)
  : M Deferred :=
  call (ExpandNode node);;
  rest ← staged (ExpandNode node);
  mret (promise ← rest;
        catch promise applicationStore.alertIllegalUnhandledError;;
        mret tt).

(** [toggleExpansion] and [selectNode] for callbacks with any kind of
    result; [nothing] is the result when no callback is run. *)
Definition toggleExpansion_of {A} (nothing : M A) (node : ref)
    (onNodeExpand onNodeCompress : ref -> M A) : M A :=
  n ← read node;
  if isLoading n then nothing
  else if isOpen n then onNodeCompress node
  else onNodeExpand node.

Definition selectNode_of {A} (nothing : M A) (node : ref)
    (onNodeSelect : option (ref -> M A)) : M A :=
  match onNodeSelect with
  | Some select => select node
  | None => nothing
  end.

Definition StagedHandler := MouseEvent -> M (MouseEvent * Deferred).

(** A staged handler that takes no notice of the event. *)
Definition plain_staged (handler : M Deferred) : StagedHandler :=
  fun event => later ← handler; mret (event, later).

(** [bubble] for staged handlers: what the handlers leave for later is put
    together in the order in which the handlers ran. *)
Fixpoint bubble_staged (handlers : list StagedHandler) (event : MouseEvent)
  : M (MouseEvent * Deferred) :=
  match handlers with
  | [] => mret (event, mret tt)
  | handler :: outer =>
      inner ← handler event;
      if propagationStopped inner.1 then mret inner
      else
        rest ← bubble_staged outer inner.1;
        mret (rest.1, (inner.2;; rest.2))
  end.

Section StagedClicks.

Variable node : ref.
Variable onNodeSelect : option (ref -> M Deferred).
Variables onNodeExpand onNodeCompress : ref -> M Deferred.

Definition selectNode_onClick_staged : StagedHandler :=
  fun event =>
    let event := preventDefault (stopPropagation event) in
    later ← selectNode_of (mret (mret tt)) node onNodeSelect;
    mret (event, later).

(** A click on the expand area of a node, drawn from the node as it is: the
    [div] with the spinner has no handler of its own, the other one has
    [toggleExpansion].  The result is the event as the click leaves it and
    what is left for later. *)
Definition clickExpandArea : M (MouseEvent * Deferred) :=
  n ← read node;
  bubble_staged
    ((if isLoading n then []
      else [plain_staged
              (toggleExpansion_of (mret (mret tt)) node
                                  onNodeExpand onNodeCompress)])
     ++ [selectNode_onClick_staged;
         plain_staged (immediately deselectTreeNode)])
    {| propagationStopped := false; defaultPrevented := false |}.

End StagedClicks.

(** The click on the expand area of a node container of the explorer's
    tree: selecting and compressing leave nothing for later, expanding is an
    asynchronous operation of the tree state. *)
Definition explorerClickExpandArea (staged : StagedFlow) (node : ref)
  : M (MouseEvent * Deferred) :=
  clickExpandArea node
    (Some (fun n => immediately (onNodeSelect n)))
    (onNodeExpand_staged staged)
    (fun n => immediately (onNodeCompress n)).

(** A store whose operations all fail, in stages: nothing happens at the
    call, the promise is rejected later. *)
Definition failing_later : StagedFlow :=
  fun _ => mret (fun w => (Rejected "no server", w)).

(** ** Drawing the explorer panel *)

(** The getters of [treeState.loadInitialDataState] that the panel reads. *)
Record ActionState := {
  isInProgress : bool;
  hasSucceeded : bool;
  hasFailed : bool
}.

Inductive PanelChild :=
  | PanelLoadingIndicator (isLoading : bool)
  | FileExplorerTree
  | Message (statusText : string)
  | BlankPanelContent (content : string).

(** A [string | undefined] used as a condition: [undefined] and the empty
    string count as false. *)
Definition truthy (text : option string) : bool :=
  match text with
  | Some text => negb (String.eqb text "")
  | None => false
  end.

(** The children of the panel's content container. *)
Definition panelContent (loadInitialDataState : ActionState)
    (statusText : option string) : list PanelChild :=
  [PanelLoadingIndicator (isInProgress loadInitialDataState)]
  ++ when (hasSucceeded loadInitialDataState) FileExplorerTree
  ++ (if negb (hasSucceeded loadInitialDataState) && truthy statusText
      then [Message (default "" statusText)] else [])
  ++ when (hasFailed loadInitialDataState)
       (BlankPanelContent "Failed to build concept tree").

(** * Properties *)

Local Open Scope list_scope.

(** ** Running commands *)

Lemma exec_bind {A B} (m : M A) (k : A -> M B) (w : World) :
  exec (m ≫= k) w = exec (k (eval m w)) (exec m w).
Proof. unfold exec, eval, mbind, M_bind. by destruct (m w). Qed.

Lemma eval_bind {A B} (m : M A) (k : A -> M B) (w : World) :
  eval (m ≫= k) w = eval (k (eval m w)) (exec m w).
Proof. unfold exec, eval, mbind, M_bind. by destruct (m w). Qed.

Lemma run_eta {A} (m : M A) (w : World) : m w = (eval m w, exec m w).
Proof. unfold exec, eval. by destruct (m w). Qed.

(** ** The enum's members *)

Section ConceptTypeMembers.

Variable ConceptType : ConceptType.t.
Hypothesis members_distinct : ConceptType.distinct ConceptType.

Lemma PACKAGE_is_not_PROPERTY :
  String.eqb (ConceptType.PACKAGE ConceptType)
             (ConceptType.PROPERTY ConceptType) = false.
Proof.
  apply String.eqb_neq. intros Heq.
  unfold ConceptType.distinct in members_distinct.
  rewrite Heq in members_distinct.
  apply NoDup_cons_1_1 in members_distinct. set_solver.
Qed.

Lemma PACKAGE_is_not_FUNCTION :
  String.eqb (ConceptType.FUNCTION ConceptType)
             (ConceptType.PACKAGE ConceptType) = false.
Proof.
  apply String.eqb_neq. intros Heq.
  unfold ConceptType.distinct in members_distinct.
  rewrite <- Heq in members_distinct.
  apply NoDup_cons_1_1 in members_distinct. set_solver.
Qed.

Lemma PROPERTY_is_not_FUNCTION :
  String.eqb (ConceptType.FUNCTION ConceptType)
             (ConceptType.PROPERTY ConceptType) = false.
Proof.
  apply String.eqb_neq. intros Heq.
  unfold ConceptType.distinct in members_distinct.
  rewrite <- Heq in members_distinct.
  do 3 apply NoDup_cons_1_2 in members_distinct.
  apply NoDup_cons_1_1 in members_distinct. set_solver.
Qed.

End ConceptTypeMembers.

Lemma Sample_conceptType_distinct : ConceptType.distinct Sample.conceptType.
Proof.
  unfold ConceptType.distinct. simpl.
  repeat (apply NoDup_cons; split;
          [rewrite list_elem_of_In; simpl; intuition discriminate |]).
  apply NoDup_nil_2.
Qed.

(** ** The context menu *)

Section ContextMenuProperties.

Variable ConceptType : ConceptType.t.

Lemma menuItems_PACKAGE (nodeType : string) :
  nodeType = ConceptType.PACKAGE ConceptType ->
  ConceptType.distinct ConceptType ->
  menuItems ConceptType nodeType =
    [ {| itemText := "Rename"; onClick := renamePackage |};
      {| itemText := "Run tests"; onClick := runTests |} ].
Proof.
  intros -> Hd. unfold menuItems.
  rewrite String.eqb_refl, (PACKAGE_is_not_PROPERTY _ Hd).
  rewrite String.eqb_sym, (PACKAGE_is_not_FUNCTION _ Hd). reflexivity.
Qed.

Lemma menuItems_PROPERTY (nodeType : string) :
  nodeType = ConceptType.PROPERTY ConceptType ->
  ConceptType.distinct ConceptType ->
  menuItems ConceptType nodeType =
    [ {| itemText := "Rename"; onClick := renameProperty |};
      {| itemText := "View Source"; onClick := viewSource |} ].
Proof.
  intros -> Hd. unfold menuItems.
  rewrite String.eqb_refl.
  rewrite (String.eqb_sym (ConceptType.PROPERTY ConceptType)
                          (ConceptType.PACKAGE ConceptType)).
  rewrite (PACKAGE_is_not_PROPERTY _ Hd).
  rewrite String.eqb_sym, (PROPERTY_is_not_FUNCTION _ Hd). reflexivity.
Qed.

Lemma menuItems_FUNCTION (nodeType : string) :
  nodeType = ConceptType.FUNCTION ConceptType ->
  ConceptType.distinct ConceptType ->
  menuItems ConceptType nodeType =
    [ {| itemText := "Rename"; onClick := rename |};
      {| itemText := "Move"; onClick := move |};
      {| itemText := "Service (JSON)"; onClick := serviceJSON |};
      {| itemText := "View Source"; onClick := viewSource |} ].
Proof.
  intros -> Hd. unfold menuItems.
  rewrite String.eqb_refl, (PACKAGE_is_not_FUNCTION _ Hd).
  rewrite (PROPERTY_is_not_FUNCTION _ Hd). reflexivity.
Qed.

Lemma menuItems_viewSource (nodeType : string) :
  In {| itemText := "View Source"; onClick := viewSource |}
     (menuItems ConceptType nodeType)
  <-> nodeType <> ConceptType.PACKAGE ConceptType.
Proof.
  unfold menuItems. rewrite <- String.eqb_neq.
  destruct (String.eqb nodeType (ConceptType.PACKAGE ConceptType));
    destruct (String.eqb nodeType (ConceptType.PROPERTY ConceptType));
    destruct (String.eqb nodeType (ConceptType.FUNCTION ConceptType));
    simpl; intuition congruence.
Qed.

(** C1.  The context menu drawn for a node is the list of items of the
    node's type tag and of nothing else.  For the Package tag its actions are
    exactly "Rename package" and "Run tests"; for the Property tag exactly
    "Rename property" and "View Source"; for the Function tag exactly
    "Rename", "Move", "Service (JSON)" and "View Source"; and every tag
    other than Package gets "View Source". *)
Theorem context_menu_actions_by_type :
  ConceptType.distinct ConceptType ->
  (forall node w,
      ConceptExplorerContextMenu ConceptType node w =
        (menuItems ConceptType (pureType (li_attr (data (heap w node)))), w))
  /\ menuActions ConceptType (ConceptType.PACKAGE ConceptType) =
       [renamePackage; runTests]
  /\ menuActions ConceptType (ConceptType.PROPERTY ConceptType) =
       [renameProperty; viewSource]
  /\ menuActions ConceptType (ConceptType.FUNCTION ConceptType) =
       [rename; move; serviceJSON; viewSource]
  /\ map Spec.actionName
         (menuActions ConceptType (ConceptType.PACKAGE ConceptType))
     = ["Rename package"; "Run tests"]
  /\ map Spec.actionName
         (menuActions ConceptType (ConceptType.PROPERTY ConceptType))
     = ["Rename property"; "View Source"]
  /\ map Spec.actionName
         (menuActions ConceptType (ConceptType.FUNCTION ConceptType))
     = ["Rename"; "Move"; "Service (JSON)"; "View Source"]
  /\ (forall nodeType,
        nodeType <> ConceptType.PACKAGE ConceptType ->
        In viewSource (menuActions ConceptType nodeType)).
Proof.
  intros Hd. unfold menuActions. repeat split.
  - by rewrite (menuItems_PACKAGE _ eq_refl Hd).
  - by rewrite (menuItems_PROPERTY _ eq_refl Hd).
  - by rewrite (menuItems_FUNCTION _ eq_refl Hd).
  - by rewrite (menuItems_PACKAGE _ eq_refl Hd).
  - by rewrite (menuItems_PROPERTY _ eq_refl Hd).
  - by rewrite (menuItems_FUNCTION _ eq_refl Hd).
  - intros nodeType Hne. apply menuItems_viewSource in Hne.
    apply (in_map onClick) in Hne. exact Hne.
Qed.

(** C10.  Whatever the type tag, exactly one of the three conditions under
    which a rename entry is drawn holds (the tag is Package; it is Property;
    it is neither), so the menu has exactly one rename entry. *)
Theorem exactly_one_rename_entry (nodeType : string) :
  ConceptType.distinct ConceptType ->
  let isPackage := String.eqb nodeType (ConceptType.PACKAGE ConceptType) in
  let isProperty := String.eqb nodeType (ConceptType.PROPERTY ConceptType) in
  let isOther := negb isPackage && negb isProperty in
  In (isPackage, isProperty, isOther)
     [(true, false, false); (false, true, false); (false, false, true)]
  /\ length (renameEntries ConceptType nodeType) = 1.
Proof.
  intros Hd. simpl. unfold renameEntries, menuItems.
  destruct (String.eqb_spec nodeType (ConceptType.PACKAGE ConceptType))
    as [-> | Hpackage].
  - rewrite (PACKAGE_is_not_PROPERTY _ Hd). simpl.
    split; [tauto |].
    by destruct (String.eqb _ _).
  - destruct (String.eqb nodeType (ConceptType.PROPERTY ConceptType)); simpl;
      (split; [tauto |]);
      by destruct (String.eqb _ _).
Qed.

End ContextMenuProperties.

Lemma context_menu_actions_by_type_witness :
  menuActions Sample.conceptType "Package" = [renamePackage; runTests]
  /\ menuActions Sample.conceptType "ConcreteFunctionDefinition" =
       [rename; move; serviceJSON; viewSource]
  /\ In viewSource (menuActions Sample.conceptType "Class").
Proof.
  destruct (context_menu_actions_by_type Sample.conceptType
              Sample_conceptType_distinct)
    as (_ & Hpackage & _ & Hfunction & _ & _ & _ & Hview).
  split; [exact Hpackage |]. split; [exact Hfunction |].
  apply Hview. discriminate.
Defined.

Lemma exactly_one_rename_entry_witness :
  length (renameEntries Sample.conceptType "Property") = 1.
Proof.
  exact (proj2 (exactly_one_rename_entry Sample.conceptType "Property"
                  Sample_conceptType_distinct)).
Defined.

(** ** The drag source *)

(** C6.  The type of the drag source of a node is [CLASS], whose value is
    the string "CLASS", exactly when the node's type tag is the string
    "Class"; for every other tag it is [UNSUPPORTED], whose value is the
    string "UNSUPPORTED". *)
Theorem drag_type_is_CLASS_iff_tag_is_Class (n : ConceptTreeNode) :
  (type (dragSpec n) = CONCEPT_TREE_DND_TYPE.CLASS
     <-> pureType (li_attr (data n)) = "Class")
  /\ (type (dragSpec n) = CONCEPT_TREE_DND_TYPE.UNSUPPORTED
        <-> pureType (li_attr (data n)) <> "Class")
  /\ (CONCEPT_TREE_DND_TYPE.value (type (dragSpec n)) = "CLASS"
        <-> pureType (li_attr (data n)) = "Class")
  /\ (CONCEPT_TREE_DND_TYPE.value (type (dragSpec n)) = "UNSUPPORTED"
        <-> pureType (li_attr (data n)) <> "Class")
  /\ item (dragSpec n) = data n.
Proof.
  unfold dragSpec. simpl.
  destruct (String.eqb_spec (pureType (li_attr (data n))) "Class")
    as [Heq | Hne];
    simpl; repeat split; try done.
Qed.

(** ** The node container *)

Section ContainerProperties.

Variable node : ref.
Variables onNodeOpen onNodeExpand onNodeCompress : ref -> M unit.

Lemma toggleExpansion_open (w : World) :
  isLoading (heap w node) = false ->
  isOpen (heap w node) = true ->
  toggleExpansion node onNodeExpand onNodeCompress w = onNodeCompress node w.
Proof.
  intros Hloading Hopen. unfold toggleExpansion, mbind, M_bind, read.
  by rewrite Hloading, Hopen.
Qed.

Lemma toggleExpansion_closed (w : World) :
  isLoading (heap w node) = false ->
  isOpen (heap w node) = false ->
  toggleExpansion node onNodeExpand onNodeCompress w = onNodeExpand node w.
Proof.
  intros Hloading Hopen. unfold toggleExpansion, mbind, M_bind, read.
  by rewrite Hloading, Hopen.
Qed.

Lemma onDoubleClick_leaf (w : World) :
  isLoading (heap w node) = false ->
  onDoubleClick node onNodeOpen onNodeExpand onNodeCompress false w
  = onNodeOpen node w.
Proof.
  intros Hloading. unfold onDoubleClick, mbind, M_bind, read.
  by rewrite Hloading.
Qed.

(** C2.  While a node is loading, the expand/collapse toggle and a double
    click return at once: whatever the compress, expand and open callbacks
    are, none of them is run, and the world (the node's state with it) is
    left as it was. *)
Theorem loading_node_ignores_toggle_and_double_click
    (isExpandable : bool) (w : World) :
  isLoading (heap w node) = true ->
  toggleExpansion node onNodeExpand onNodeCompress w = (tt, w)
  /\ onDoubleClick node onNodeOpen onNodeExpand onNodeCompress isExpandable w
     = (tt, w).
Proof.
  intros Hloading.
  unfold onDoubleClick, toggleExpansion, mbind, M_bind, read.
  by rewrite Hloading.
Qed.

End ContainerProperties.

(** Callbacks that leave a trace: with them, a toggle or a double click that
    ran a callback would show in the call log. *)
Lemma loading_node_ignores_toggle_and_double_click_witness :
  let open := fun n => call (OpenNode n) in
  let expand := fun n => call (ExpandNode n) in
  let compress := fun n => call (NotifyUnsupportedFeature "compress") in
  isLoading (heap Sample.world 4%positive) = true
  /\ toggleExpansion 4%positive expand compress Sample.world
     = (tt, Sample.world)
  /\ onDoubleClick 4%positive open expand compress true Sample.world
     = (tt, Sample.world).
Proof.
  intros open expand compress. split; [reflexivity |].
  apply (loading_node_ignores_toggle_and_double_click
           4%positive open expand compress true Sample.world).
  reflexivity.
Defined.

(** ** The explorer's callbacks *)

Lemma filter_isNonNullable_filter {A} (array : list (option A)) :
  map Some (filter_isNonNullable array) = List.filter isNonNullable array.
Proof.
  induction array as [| [value |] rest IH]; simpl; congruence.
Qed.

Lemma filter_isNonNullable_omap {A B} (f : A -> option B) (l : list A) :
  filter_isNonNullable (map f l) = omap f l.
Proof.
  induction l as [| a l IH]; simpl; [done |].
  destruct (f a); simpl; by rewrite IH.
Qed.

Lemma length_omap_resolved {A B} (f : A -> option B) (l : list A) :
  length (omap f l) = length (filter (fun a => is_Some (f a)) l).
Proof.
  induction l as [| a l IH]; [done |].
  change (omap f (a :: l))
    with (match f a with Some b => b :: omap f l | None => omap f l end).
  destruct (f a) as [b |] eqn:Hfa.
  - rewrite filter_cons_True by (rewrite Hfa; eauto).
    change (S (length (omap f l))
            = S (length (filter (fun a => is_Some (f a)) l))).
    by rewrite IH.
  - rewrite filter_cons_False by (rewrite Hfa; by intros [? ?]). done.
Qed.

(** C3.  Getting the child nodes of a node changes nothing, and what it
    returns is the list of visible children as the specification words it:
    empty when the node is loading or has no [childrenIds], and otherwise
    the [childrenIds], in order, looked up in the node collection with the
    ids that do not resolve left out, so that its length is the number of
    ids that resolve. *)
Theorem getChildNodes_is_visible_children
    (treeData : TreeData) (node : ref) (w : World) :
  getChildNodes treeData node w
  = (Spec.visibleChildren (nodes treeData) (heap w node), w)
  /\ (forall ids,
        isLoading (heap w node) = false ->
        childrenIds (heap w node) = Some ids ->
        eval (getChildNodes treeData node) w
        = omap (fun childId => nodes treeData !! childId) ids
        /\ length (eval (getChildNodes treeData node) w)
           = length (filter (Spec.resolves (nodes treeData)) ids)
        /\ (forall child,
              child ∈ eval (getChildNodes treeData node) w
              <-> exists childId,
                    childId ∈ ids /\ nodes treeData !! childId = Some child))
  /\ (isLoading (heap w node) = true \/ childrenIds (heap w node) = None ->
      eval (getChildNodes treeData node) w = []).
Proof.
  assert (Hrun : getChildNodes treeData node w
                 = (Spec.visibleChildren (nodes treeData) (heap w node), w)).
  { unfold getChildNodes, Spec.visibleChildren, mbind, M_bind, read.
    destruct (isLoading (heap w node)), (childrenIds (heap w node));
      simpl; try done.
    unfold mret, M_ret. by rewrite filter_isNonNullable_omap. }
  split; [exact Hrun |]. unfold eval. rewrite Hrun. simpl.
  unfold Spec.visibleChildren. split.
  - intros ids -> ->. split; [done |]. split.
    + apply length_omap_resolved.
    + intros child. rewrite list_elem_of_omap. naive_solver.
  - intros [-> | ->]; [done |]. by destruct (isLoading _).
Qed.

Lemma getChildNodes_is_visible_children_witness :
  eval (getChildNodes Sample.tree 1%positive) Sample.world
  = [2%positive; 3%positive]
  /\ length (eval (getChildNodes Sample.tree 1%positive) Sample.world) = 2
  /\ eval (getChildNodes Sample.tree 4%positive) Sample.world = [].
Proof.
  pose proof (getChildNodes_is_visible_children
                Sample.tree 1%positive Sample.world) as (_ & Hloaded & _).
  pose proof (getChildNodes_is_visible_children
                Sample.tree 4%positive Sample.world) as (_ & _ & Hloading).
  destruct (Hloaded ["model::Person"; "model::gone"; "model::hello"]
              eq_refl eq_refl) as (Hchildren & Hlength & _).
  split; [rewrite Hchildren; reflexivity |].
  split; [rewrite Hchildren; reflexivity |].
  apply Hloading. left. reflexivity.
Defined.

Lemma set_isOpen_idempotent (b : bool) (n : ConceptTreeNode) :
  set_isOpen b (set_isOpen b n) = set_isOpen b n.
Proof. reflexivity. Qed.

Lemma onNodeCompress_run (node : ref) (w : World) :
  onNodeCompress node w
  = (tt, {| heap := <[node := set_isOpen false (heap w node)]> (heap w);
            treeData := treeData w; selectedNode := selectedNode w;
            client := client w; calls := calls w ++ [RefreshTree] |}).
Proof. reflexivity. Qed.

(** C5.  Compressing a loaded, open node closes that node and nothing else:
    its [childrenIds] and every other field of it stay as they were, no
    other node object changes, neither the node collection nor the
    selection changes, and the one call made is the synchronous request to
    draw the tree again, which fetches nothing. *)
Theorem onNodeCompress_closes_and_keeps_children
    (node : ref) (ids : list string) (w : World) :
  isOpen (heap w node) = true ->
  childrenIds (heap w node) = Some ids ->
  let w' := exec (onNodeCompress node) w in
  isOpen (heap w' node) = false
  /\ childrenIds (heap w' node) = Some ids
  /\ heap w' node = set_isOpen false (heap w node)
  /\ (forall other, other <> node -> heap w' other = heap w other)
  /\ treeData w' = treeData w
  /\ selectedNode w' = selectedNode w
  /\ calls w' = calls w ++ [RefreshTree]
  /\ isFetch RefreshTree = false
  /\ isAsync RefreshTree = false.
Proof.
  intros _ Hchildren w'. subst w'. unfold exec.
  rewrite onNodeCompress_run. simpl.
  rewrite fn_lookup_insert. repeat split; try done.
  intros other Hother. by rewrite fn_lookup_insert_ne.
Qed.

Lemma onNodeCompress_closes_and_keeps_children_witness :
  let w' := exec (onNodeCompress 1%positive) Sample.world in
  isOpen (heap Sample.world 1%positive) = true
  /\ isOpen (heap w' 1%positive) = false
  /\ childrenIds (heap w' 1%positive)
     = Some ["model::Person"; "model::gone"; "model::hello"]
  /\ calls w' = [RefreshTree].
Proof.
  intros w'. split; [reflexivity |].
  destruct (onNodeCompress_closes_and_keeps_children
              1%positive ["model::Person"; "model::gone"; "model::hello"]
              Sample.world eq_refl eq_refl)
    as (Hopen & Hchildren & _ & _ & _ & _ & Hcalls & _).
  split; [exact Hopen |]. split; [exact Hchildren |]. exact Hcalls.
Defined.

(** ** Open and expand *)

Lemma catch_never_rejects (promise : Settlement)
    (onRejected : Error -> M unit) (w : World) (error : Error) :
  eval (catch promise onRejected) w <> Rejected error.
Proof.
  destruct promise; unfold eval, catch, mbind, M_bind, mret, M_ret; simpl;
    try discriminate.
  by destruct (onRejected _ w).
Qed.

Lemma catch_reports (error : Error) (w : World) :
  catch (Rejected error) applicationStore.alertIllegalUnhandledError w
  = (Fulfilled,
     {| heap := heap w; treeData := treeData w;
        selectedNode := selectedNode w; client := client w;
        calls := calls w ++ [AlertIllegalUnhandledError error] |}).
Proof. reflexivity. Qed.

Lemma catch_passes (promise : Settlement) (onRejected : Error -> M unit)
    (w : World) :
  (forall error, promise <> Rejected error) ->
  catch promise onRejected w = (promise, w).
Proof. intros Hok. destruct promise; try done. by destruct (Hok error). Qed.

(** An operation whose promise is given to
    [.catch(applicationStore.alertIllegalUnhandledError)]. *)
Lemma caught_run (start : M Settlement) (w : World) :
  let run :=
    promise ← start;
    catch promise applicationStore.alertIllegalUnhandledError in
  (forall error, eval run w <> Rejected error)
  /\ (forall error w1,
        start w = (Rejected error, w1) ->
        run w
        = (Fulfilled,
           exec (applicationStore.alertIllegalUnhandledError error) w1))
  /\ (forall promise w1,
        (forall error, promise <> Rejected error) ->
        start w = (promise, w1) ->
        run w = (promise, w1)).
Proof.
  intros run. subst run. split; [| split].
  - intros error. rewrite eval_bind. apply catch_never_rejects.
  - intros error w1 Hrun. unfold mbind, M_bind. by rewrite Hrun.
  - intros promise w1 Hok Hrun. unfold mbind, M_bind. rewrite Hrun.
    by apply catch_passes.
Qed.

(** C7.  Opening and expanding a node never end in a rejection: when the
    tree state's operation fails with an error, that error is handed, once,
    to the application store's [alertIllegalUnhandledError], the same
    function for both, and the promise given back is fulfilled; when the
    operation does not fail, nothing is reported. *)
Theorem open_and_expand_failures_are_reported
    (flow : Flow) (node : ref) (w : World) :
  (forall error,
      eval (onNodeOpen flow node) w <> Rejected error
      /\ eval (onNodeExpand flow node) w <> Rejected error)
  /\ (forall error w1,
        treeState.openNode flow node w = (Rejected error, w1) ->
        onNodeOpen flow node w
        = (Fulfilled,
           exec (applicationStore.alertIllegalUnhandledError error) w1)
        /\ calls (exec (onNodeOpen flow node) w)
           = calls w1 ++ [AlertIllegalUnhandledError error])
  /\ (forall error w1,
        treeState.expandNode flow node w = (Rejected error, w1) ->
        onNodeExpand flow node w
        = (Fulfilled,
           exec (applicationStore.alertIllegalUnhandledError error) w1)
        /\ calls (exec (onNodeExpand flow node) w)
           = calls w1 ++ [AlertIllegalUnhandledError error])
  /\ (forall promise w1,
        (forall error, promise <> Rejected error) ->
        (treeState.openNode flow node w = (promise, w1) ->
         onNodeOpen flow node w = (promise, w1))
        /\ (treeState.expandNode flow node w = (promise, w1) ->
            onNodeExpand flow node w = (promise, w1))).
Proof.
  destruct (caught_run (treeState.openNode flow node) w)
    as (Hopen_ok & Hopen_fail & Hopen_pass).
  destruct (caught_run (treeState.expandNode flow node) w)
    as (Hexpand_ok & Hexpand_fail & Hexpand_pass).
  split; [| split; [| split]].
  - intros error. split; [apply Hopen_ok | apply Hexpand_ok].
  - intros error w1 Hrun. apply Hopen_fail in Hrun.
    split; [exact Hrun |].
    unfold exec at 1. unfold onNodeOpen. by rewrite Hrun.
  - intros error w1 Hrun. apply Hexpand_fail in Hrun.
    split; [exact Hrun |].
    unfold exec at 1. unfold onNodeExpand. by rewrite Hrun.
  - intros promise w1 Hok. split; intros Hrun.
    + by apply Hopen_pass.
    + by apply Hexpand_pass.
Qed.

Lemma open_and_expand_failures_are_reported_witness :
  treeState.openNode Sample.failing 3%positive Sample.world
  = (Rejected "no server", exec (call (OpenNode 3%positive)) Sample.world)
  /\ eval (onNodeOpen Sample.failing 3%positive) Sample.world = Fulfilled
  /\ calls (exec (onNodeOpen Sample.failing 3%positive) Sample.world)
     = [OpenNode 3%positive; AlertIllegalUnhandledError "no server"].
Proof.
  split; [reflexivity |].
  destruct (open_and_expand_failures_are_reported
              Sample.failing 3%positive Sample.world)
    as (_ & Hfail & _).
  destruct (Hfail "no server" (exec (call (OpenNode 3%positive)) Sample.world)
              eq_refl) as (Hrun & Hcalls).
  split; [unfold eval; rewrite Hrun; reflexivity |].
  rewrite Hcalls. reflexivity.
Defined.

(** ** View source *)

Lemma viewConceptSource_element (node : ref) (w : World)
    (i t file line column : string) :
  li_attr (data (heap w node)) = ElementConceptAttribute i t file line column
  \/ li_attr (data (heap w node))
     = PropertyConceptAttribute i t file line column ->
  calls (exec (viewConceptSource node) w)
  = calls w
    ++ [RevealPath file true
          {| coordFile := file;
             coordLine := Number_parseInt line 10;
             coordColumn := Number_parseInt column 10 |}].
Proof.
  unfold exec, viewConceptSource, mbind, M_bind, read.
  by intros [-> | ->].
Qed.

(** C9.  Viewing the source of a node whose attribute record is neither an
    element concept attribute nor a property concept attribute does nothing:
    the world is left as it was, so no path is revealed, and so it is when
    the request comes from the "View Source" entry of the node's context
    menu. *)
Theorem viewConceptSource_without_source_location
    (flow : Flow) (node : ref) (w : World) (i t : string) :
  li_attr (data (heap w node)) = OtherConceptAttribute i t ->
  viewConceptSource node w = (tt, w)
  /\ handle flow node viewConceptSource viewSource w = (tt, w)
  /\ calls (exec (viewConceptSource node) w) = calls w.
Proof.
  intros Hattribute.
  assert (Hrun : viewConceptSource node w = (tt, w)).
  { unfold viewConceptSource, mbind, M_bind, read. by rewrite Hattribute. }
  split; [exact Hrun |]. split; [exact Hrun |].
  unfold exec. by rewrite Hrun.
Qed.

Lemma viewConceptSource_without_source_location_witness :
  li_attr (data (heap Sample.world 1%positive))
  = OtherConceptAttribute "model" "Package"
  /\ viewConceptSource 1%positive Sample.world = (tt, Sample.world).
Proof.
  split; [reflexivity |].
  apply (viewConceptSource_without_source_location
           Sample.failing 1%positive Sample.world
           "model" "Package" eq_refl).
Defined.

(** ** Collapse all *)

(** Closing the node objects of a list of entries, in the list's order. *)
Lemma close_entries_run (entries : list (string * ref)) (w : World) :
  let w' :=
    exec (foldr (fun entry rest =>
                   write entry.2 (set_isOpen false);; rest)
                (mret tt) entries) w in
  (forall node,
      heap w' node
      = if decide (node ∈ entries.*2)
        then set_isOpen false (heap w node) else heap w node)
  /\ treeData w' = treeData w
  /\ selectedNode w' = selectedNode w
  /\ client w' = client w
  /\ calls w' = calls w.
Proof.
  revert w. induction entries as [| [key object] entries IH]; intros w.
  - split; [| done]. intros node.
    rewrite decide_False; [done | apply not_elem_of_nil].
  - simpl foldr. cbv zeta. rewrite exec_bind.
    destruct (IH (exec (write object (set_isOpen false)) w))
      as (Hheap & Htree & Hselected & Hclient & Hcalls).
    split; [| by rewrite Htree, Hselected, Hclient, Hcalls].
    intros node. rewrite Hheap. rewrite fmap_cons. simpl.
    destruct (decide (node = object)) as [-> | Hne].
    + rewrite fn_lookup_insert, set_isOpen_idempotent.
      rewrite (decide_True (P := object ∈ object :: entries.*2))
        by apply list_elem_of_here.
      by destruct (decide _).
    + rewrite fn_lookup_insert_ne by done.
      destruct (decide (node ∈ entries.*2)) as [Hin | Hout].
      * rewrite decide_True; [done | by apply list_elem_of_further].
      * rewrite decide_False; [done |].
        rewrite elem_of_cons. tauto.
Qed.

Lemma collapseTree_run (w : World) :
  let w1 :=
    exec (foldr (fun entry rest =>
                   write entry.2 (set_isOpen false);; rest)
                (mret tt) (map_to_list (nodes (treeData w)))) w in
  collapseTree w
  = (tt, {| heap := fun object => set_isSelected false (heap w1 object);
            treeData := treeData w1;
            selectedNode := None; client := client w1;
            calls := calls w1 ++ [SetSelectedNode None; RefreshTree] |}).
Proof.
  intros w1. unfold collapseTree, Map_forEach.
  change (treeState.getTreeData ≫= ?k)
    with (fun w0 : World => k (treeData w0) w0).
  cbv beta. unfold mbind at 1. unfold M_bind at 1.
  subst w1. unfold exec.
  destruct (foldr (A := M unit) _ _ _ w) as [[] w1]. cbn [snd].
  unfold mbind, M_bind, treeState.setSelectedNode, treeState.refreshTree,
    call.
  cbn [heap treeData selectedNode client calls].
  by rewrite <- app_assoc.
Qed.

(** The order in which the entries are visited does not matter, so nothing
    is lost by visiting them in another order than that of insertion. *)
Lemma close_entries_any_order (entries entries' : list (string * ref))
    (w : World) (node : ref) :
  entries ≡ₚ entries' ->
  let close := fun l =>
    foldr (fun entry rest => write entry.2 (set_isOpen false);; rest)
          (mret tt) l in
  heap (exec (close entries) w) node = heap (exec (close entries') w) node.
Proof.
  intros Hperm close. subst close. cbv beta.
  destruct (close_entries_run entries w) as (-> & _).
  destruct (close_entries_run entries' w) as (-> & _).
  destruct (decide (node ∈ entries.*2)) as [Hin | Hout].
  - rewrite decide_True; [done | by rewrite <- Hperm].
  - rewrite decide_False; [done | by rewrite <- Hperm].
Qed.

(** C4.  "Collapse all" is a plain command, with no promise to wait for: it
    sets [isOpen] to false on the node object of every entry of the tree's
    node collection, whatever the flag was, and clears the selection: no
    node object is left selected, none is drawn as selected, and the tree
    state remembers no selected node.  It then asks for the tree to be drawn
    again; neither call is asynchronous.  No other field of a node changes
    and the collection stays as it was. *)
Theorem collapseTree_closes_every_node (w : World) :
  let w' := exec collapseTree w in
  (forall nodeId node,
      nodes (treeData w) !! nodeId = Some node ->
      isOpen (heap w' node) = false
      /\ heap w' node = set_isSelected false (set_isOpen false (heap w node)))
  /\ (forall node,
        isSelected (heap w' node) = false
        /\ forall isSelectedFromContextMenu,
             ~ In "explorer__package-tree__node__container--selected"
                  (containerClassName (heap w' node)
                                      isSelectedFromContextMenu))
  /\ (forall node,
        (forall nodeId, nodes (treeData w) !! nodeId <> Some node) ->
        heap w' node = set_isSelected false (heap w node))
  /\ selectedNode w' = None
  /\ treeData w' = treeData w
  /\ calls w' = calls w ++ [SetSelectedNode None; RefreshTree]
  /\ isAsync (SetSelectedNode None) = false
  /\ isAsync RefreshTree = false.
Proof.
  intros w'.
  destruct (close_entries_run (map_to_list (nodes (treeData w))) w)
    as (Hheap & Htree & Hselected & Hclient & Hcalls).
  pose proof (collapseTree_run w) as Hrun. cbv zeta in Hrun.
  set (w1 := exec (foldr _ _ _) w) in *.
  assert (Hw' : w' = snd (collapseTree w)) by reflexivity.
  rewrite Hrun in Hw'. cbn [snd] in Hw'. rewrite Hw'. clear Hw' Hrun w'.
  cbn [calls heap treeData selectedNode client].
  split; [| split; [| split; [| split; [| split; [| split]]]]]; try done.
  - intros nodeId node Hlookup.
    assert (Hin : node ∈ (map_to_list (nodes (treeData w))).*2).
    { apply list_elem_of_fmap. exists (nodeId, node). split; [done |].
      by apply elem_of_map_to_list. }
    rewrite Hheap, decide_True by done. done.
  - intros node. split; [done |].
    intros isSelectedFromContextMenu.
    unfold containerClassName, clsx. cbn [set_isSelected isSelected].
    destruct isSelectedFromContextMenu; simpl; intuition discriminate.
  - intros node Hout. rewrite Hheap, decide_False; [done |].
    intros Hin. apply list_elem_of_fmap in Hin as ([nodeId object] & -> & Hin).
    apply elem_of_map_to_list in Hin. by apply (Hout nodeId).
  - by rewrite Hcalls.
Qed.

Lemma collapseTree_closes_every_node_witness :
  let w' := exec collapseTree Sample.selected in
  nodes (treeData Sample.selected) !! "model::Person" = Some 2%positive
  /\ isOpen (heap Sample.selected 2%positive) = true
  /\ isSelected (heap Sample.selected 2%positive) = true
  /\ selectedNode Sample.selected = Some 2%positive
  /\ isOpen (heap w' 2%positive) = false
  /\ isSelected (heap w' 2%positive) = false
  /\ selectedNode w' = None.
Proof.
  intros w'.
  assert (Hlookup : nodes (treeData Sample.selected) !! "model::Person"
                    = Some 2%positive) by (vm_compute; reflexivity).
  split; [exact Hlookup |]. do 3 (split; [reflexivity |]).
  destruct (collapseTree_closes_every_node Sample.selected)
    as (Hclosed & Hcleared & _ & Hselected & _).
  split; [exact (proj1 (Hclosed "model::Person" 2%positive Hlookup)) |].
  split; [exact (proj1 (Hcleared 2%positive)) | exact Hselected].
Defined.

(** ** The handlers behind the rename, move and service entries *)

Lemma handle_unsupported (flow : Flow) (node : ref)
    (viewConceptSource : ref -> M unit) (w : World) :
  calls (exec (handle flow node viewConceptSource renamePackage) w)
  = calls w ++ [NotifyUnsupportedFeature "Rename package"]
  /\ calls (exec (handle flow node viewConceptSource renameProperty) w)
     = calls w ++ [NotifyUnsupportedFeature "Rename property"]
  /\ calls (exec (handle flow node viewConceptSource rename) w)
     = calls w ++ [NotifyUnsupportedFeature "Rename"]
  /\ calls (exec (handle flow node viewConceptSource move) w)
     = calls w ++ [NotifyUnsupportedFeature "Move file"].
Proof. done. Qed.

Lemma handle_serviceJSON (flow : Flow) (node : ref)
    (viewConceptSource : ref -> M unit) (w : World) :
  calls (exec (handle flow node viewConceptSource serviceJSON) w)
  = calls w
    ++ [WindowOpen
          (baseUrl (client w) ++ "/execute?func="
           ++ pureId (li_attr (data (heap w node)))
           ++ "&mode=" ++ mode (client w))%string
          "_blank"].
Proof. done. Qed.

(** ** The merge-operation specification holder *)

Module JavaProperties.

Import Java.

Lemma assign_sets_field (from : Origin) (f : Field) (v : Value)
    (o o' : TemporaryPureMergeOperationFunctionSpecification) :
  assign from f v o = Some o' ->
  get f o' = v /\ (forall g, g <> f -> get g o' = get g o).
Proof.
  unfold assign. destruct (assignable from f); [| done].
  destruct f, v; try done; intros [= <-]; (split; [done |]);
    intros []; done.
Qed.

(** C8, as the code has it.  An instance holds the source information and
    the validation expression that the constructor, or [build] through it,
    was given; the constructor and [build] are all that the class declares,
    so nothing of the class changes a field of an instance once it is
    built.  The two fields are public and not final: code that uses the
    class, wherever it lives, can assign either, and the assignment changes
    that field and not the other. *)
Theorem specification_holds_what_it_was_built_with :
  (forall s v,
      build s v = new s v
      /\ sourceInformation (build s v) = s
      /\ validationExpression (build s v) = v)
  /\ map memberName members
     = ["TemporaryPureMergeOperationFunctionSpecification"; "build"]
  /\ (forall from f, assignable from f = true)
  /\ (forall from f v o o',
        assign from f v o = Some o' ->
        get f o' = v /\ (forall g, g <> f -> get g o' = get g o)).
Proof.
  split; [done |]. split; [done |]. split.
  - by intros [] [].
  - apply assign_sets_field.
Qed.

Lemma specification_holds_what_it_was_built_with_witness :
  let o := build Sample.location 5%positive in
  let o' := {| sourceInformation := Sample.elsewhere;
               validationExpression := 5%positive |} in
  assign OtherPackage sourceInformation_
         (VSourceInformation Sample.elsewhere) o = Some o'
  /\ get sourceInformation_ o' = VSourceInformation Sample.elsewhere
  /\ get validationExpression_ o' = get validationExpression_ o.
Proof.
  intros o o'. split; [reflexivity |].
  destruct specification_holds_what_it_was_built_with
    as (_ & _ & _ & Hassign).
  destruct (Hassign OtherPackage sourceInformation_
              (VSourceInformation Sample.elsewhere) o o' eq_refl)
    as (Hset & Hframe).
  split; [exact Hset |]. apply Hframe. discriminate.
Defined.

(** C8, as the specification words it, fails: an instance built with one
    source information has another one after a plain assignment, so the
    holder is not immutable. *)
Lemma specification_field_can_be_reassigned :
  (let o := build Sample.location 5%positive in
   exists o',
     assign OtherPackage sourceInformation_
            (VSourceInformation Sample.elsewhere) o = Some o'
     /\ sourceInformation o = Sample.location
     /\ sourceInformation o' = Sample.elsewhere
     /\ sourceInformation o' <> sourceInformation o)
  /\ ~ immutable.
Proof.
  assert (Hrun :
    let o := build Sample.location 5%positive in
    exists o',
      assign OtherPackage sourceInformation_
             (VSourceInformation Sample.elsewhere) o = Some o'
      /\ sourceInformation o = Sample.location
      /\ sourceInformation o' = Sample.elsewhere
      /\ sourceInformation o' <> sourceInformation o).
  { eexists. repeat split. discriminate. }
  split; [exact Hrun |].
  intros Himmutable. destruct Hrun as (o' & Hassign & _ & _ & Hne).
  apply Hne. by rewrite (Himmutable _ _ _ _ _ Hassign).
Qed.

End JavaProperties.

(** * Further properties of the explorer *)

(** ** The context menu, tag by tag *)

(** X1.  With the enum's members distinct, the actions of the menu are, in
    order: for the Package tag, rename-package and run-tests; for the
    Property tag, rename-property and view-source; for the Function tag,
    rename, move, service and view-source; and for every other tag rename,
    move and view-source. *)
Theorem menu_actions_of_every_tag (ConceptType : ConceptType.t)
    (nodeType : string) :
  ConceptType.distinct ConceptType ->
  menuActions ConceptType nodeType =
    if String.eqb nodeType (ConceptType.PACKAGE ConceptType)
    then [renamePackage; runTests]
    else if String.eqb nodeType (ConceptType.PROPERTY ConceptType)
    then [renameProperty; viewSource]
    else if String.eqb nodeType (ConceptType.FUNCTION ConceptType)
    then [rename; move; serviceJSON; viewSource]
    else [rename; move; viewSource].
Proof.
  intros Hd. unfold menuActions.
  destruct (String.eqb_spec nodeType (ConceptType.PACKAGE ConceptType))
    as [Hpackage | Hpackage].
  { by rewrite (menuItems_PACKAGE _ _ Hpackage Hd). }
  destruct (String.eqb_spec nodeType (ConceptType.PROPERTY ConceptType))
    as [Hproperty | Hproperty].
  { by rewrite (menuItems_PROPERTY _ _ Hproperty Hd). }
  destruct (String.eqb_spec nodeType (ConceptType.FUNCTION ConceptType))
    as [Hfunction | Hfunction].
  { by rewrite (menuItems_FUNCTION _ _ Hfunction Hd). }
  apply String.eqb_neq in Hpackage, Hproperty, Hfunction.
  unfold menuItems. by rewrite Hpackage, Hproperty, Hfunction.
Qed.

Lemma menu_actions_of_every_tag_witness :
  menuActions Sample.conceptType "Class" = [rename; move; viewSource]
  /\ menuActions Sample.conceptType "Enumeration" = [rename; move; viewSource].
Proof.
  split.
  - exact (menu_actions_of_every_tag Sample.conceptType "Class"
             Sample_conceptType_distinct).
  - exact (menu_actions_of_every_tag Sample.conceptType "Enumeration"
             Sample_conceptType_distinct).
Defined.

(** X2.  Whatever strings the enum's members are and whatever the tag, the
    menu offers no action twice and has at least two and at most four
    entries. *)
Theorem menu_has_two_to_four_distinct_actions (ConceptType : ConceptType.t)
    (nodeType : string) :
  NoDup (menuActions ConceptType nodeType)
  /\ 2 <= length (menuItems ConceptType nodeType) <= 4.
Proof.
  unfold menuActions, menuItems.
  destruct (String.eqb nodeType (ConceptType.PACKAGE ConceptType)),
    (String.eqb nodeType (ConceptType.PROPERTY ConceptType)),
    (String.eqb nodeType (ConceptType.FUNCTION ConceptType));
    simpl; (split; [| lia]);
    repeat (apply NoDup_cons; split;
            [rewrite list_elem_of_In; simpl; intuition discriminate |]);
    apply NoDup_nil_2.
Qed.

(** ** Double clicks in the explorer *)

Section ExplorerDoubleClick.

Variable ConceptType : ConceptType.t.
Variable flow : Flow.
Variable node : ref.

(** The container of [node], drawn by the explorer's tree. *)
Local Abbreviation explorerDoubleClick :=
  (doubleClick ConceptType node
     (innerProps_onNodeOpen flow) (innerProps_onNodeExpand flow)
     onNodeCompress).

Lemma isExpandable_false_of_tag (n : ConceptTreeNode) :
  ConceptType.distinct ConceptType ->
  pureType (li_attr (data n)) = ConceptType.PROPERTY ConceptType
  \/ pureType (li_attr (data n)) = ConceptType.FUNCTION ConceptType ->
  isExpandable ConceptType n = false.
Proof.
  intros Hd Htag. unfold isExpandable. simpl.
  unfold ConceptType.distinct in Hd.
  apply NoDup_ListNoDup in Hd.
  repeat match goal with
         | H : List.NoDup (_ :: _) |- _ => inversion_clear H
         end.
  repeat match goal with
         | H : ~ In _ _ |- _ => simpl in H
         end.
  rewrite !orb_false_r. rewrite !orb_false_iff, !String.eqb_neq.
  destruct Htag as [-> | ->]; intuition congruence.
Qed.

(** X3.  A double click on a node that is not loading does one thing.  On
    an expandable node (Package, Class, Association) that is open it
    compresses the node: the node is closed and the one call made is the
    request to draw the tree again.  On an expandable node that is closed it
    asks the tree state to expand the node.  On any other node it asks the
    tree state to open the node; with the enum's members distinct, Property
    and Function nodes are such nodes. *)
Theorem double_click_compresses_expands_or_opens (w : World) :
  isLoading (heap w node) = false ->
  (isExpandable ConceptType (heap w node) = true ->
   isOpen (heap w node) = true ->
   explorerDoubleClick w = onNodeCompress node w
   /\ isOpen (heap (exec explorerDoubleClick w) node) = false
   /\ calls (exec explorerDoubleClick w) = calls w ++ [RefreshTree])
  /\ (isExpandable ConceptType (heap w node) = true ->
      isOpen (heap w node) = false ->
      explorerDoubleClick w = innerProps_onNodeExpand flow node w)
  /\ (isExpandable ConceptType (heap w node) = false ->
      explorerDoubleClick w = innerProps_onNodeOpen flow node w)
  /\ (ConceptType.distinct ConceptType ->
      pureType (li_attr (data (heap w node)))
      = ConceptType.PROPERTY ConceptType
      \/ pureType (li_attr (data (heap w node)))
         = ConceptType.FUNCTION ConceptType ->
      explorerDoubleClick w = innerProps_onNodeOpen flow node w).
Proof.
  intros Hloading.
  assert (Hleaf : isExpandable ConceptType (heap w node) = false ->
                  explorerDoubleClick w = innerProps_onNodeOpen flow node w).
  { intros Hexpandable.
    unfold doubleClick, onDoubleClick, mbind at 1 2, M_bind at 1 2, read.
    by rewrite Hexpandable, Hloading. }
  split; [| split; [| split]].
  - intros Hexpandable Hopen.
    assert (Hrun : explorerDoubleClick w = onNodeCompress node w).
    { unfold doubleClick, onDoubleClick, toggleExpansion,
        mbind at 1 2 3, M_bind at 1 2 3, read.
      rewrite Hloading, Hexpandable. cbv beta.
      by rewrite Hloading, Hopen. }
    split; [exact Hrun |]. unfold exec. rewrite Hrun, onNodeCompress_run.
    simpl. by rewrite fn_lookup_insert.
  - intros Hexpandable Hopen.
    unfold doubleClick, onDoubleClick, toggleExpansion,
      mbind at 1 2 3, M_bind at 1 2 3, read.
    rewrite Hloading, Hexpandable. cbv beta.
    by rewrite Hloading, Hopen.
  - exact Hleaf.
  - intros Hd Htag. apply Hleaf. by apply isExpandable_false_of_tag.
Qed.

End ExplorerDoubleClick.

Lemma double_click_compresses_expands_or_opens_witness :
  let dbl := doubleClick Sample.conceptType 1%positive
               (innerProps_onNodeOpen Sample.failing)
               (innerProps_onNodeExpand Sample.failing) onNodeCompress in
  let leaf := doubleClick Sample.conceptType 3%positive
                (innerProps_onNodeOpen Sample.failing)
                (innerProps_onNodeExpand Sample.failing) onNodeCompress in
  isOpen (heap (exec dbl Sample.world) 1%positive) = false
  /\ calls (exec dbl Sample.world) = [RefreshTree]
  /\ leaf Sample.world = innerProps_onNodeOpen Sample.failing 3%positive
                           Sample.world.
Proof.
  intros dbl leaf.
  destruct (double_click_compresses_expands_or_opens
              Sample.conceptType Sample.failing 1%positive Sample.world
              eq_refl) as (Hopen & _).
  destruct (double_click_compresses_expands_or_opens
              Sample.conceptType Sample.failing 3%positive Sample.world
              eq_refl) as (_ & _ & _ & Hleaf).
  destruct (Hopen eq_refl eq_refl) as (_ & Hclosed & Hcalls).
  split; [exact Hclosed |]. split; [exact Hcalls |].
  apply Hleaf; [exact Sample_conceptType_distinct |]. right. reflexivity.
Defined.

(** ** Child nodes *)

Lemma length_omap_le {A B} (f : A -> option B) (l : list A) :
  length (omap f l) <= length l.
Proof.
  rewrite length_omap_resolved. apply length_filter.
Qed.

Lemma omap_full_length {A B} (f : A -> option B) (l : list A) :
  length (omap f l) = length l <-> Forall (fun a => is_Some (f a)) l.
Proof.
  induction l as [| a l IH]; [by split; [constructor |] |].
  change (omap f (a :: l))
    with (match f a with Some b => b :: omap f l | None => omap f l end).
  pose proof (length_omap_le f l) as Hle.
  rewrite Forall_cons. destruct (f a) as [b |] eqn:Hfa; simpl.
  - rewrite <- IH. split; [intros [= ?]; eauto | intros [_ ?]; congruence].
  - split; [lia | intros [[? [=]] _]].
Qed.

(** X4.  A node has at most as many child nodes as [childrenIds], and as
    many exactly when every id is a key of the node collection; each child
    node is an object of the collection, and a loaded node whose
    [childrenIds] is the empty array has none. *)
Theorem getChildNodes_bounds (treeData : TreeData) (node : ref)
    (ids : list string) (w : World) :
  isLoading (heap w node) = false ->
  childrenIds (heap w node) = Some ids ->
  let children := eval (getChildNodes treeData node) w in
  length children <= length ids
  /\ (length children = length ids
      <-> Forall (fun childId => is_Some (nodes treeData !! childId)) ids)
  /\ (forall child,
        child ∈ children ->
        exists childId, nodes treeData !! childId = Some child)
  /\ (ids = [] -> children = []).
Proof.
  intros Hloading Hids children.
  assert (Hchildren :
            children = omap (fun childId => nodes treeData !! childId) ids).
  { subst children.
    unfold eval, getChildNodes, mbind, M_bind, read.
    rewrite Hloading, Hids. simpl. apply filter_isNonNullable_omap. }
  rewrite Hchildren. split; [apply length_omap_le |].
  split; [apply omap_full_length |]. split.
  - intros child Hin. apply list_elem_of_omap in Hin as (childId & _ & Hget).
    by exists childId.
  - by intros ->.
Qed.

Lemma getChildNodes_bounds_witness :
  let children := eval (getChildNodes Sample.tree 1%positive) Sample.world in
  length children <= 3
  /\ forall child,
       child ∈ children ->
       exists childId, nodes Sample.tree !! childId = Some child.
Proof.
  intros children.
  destruct (getChildNodes_bounds
              Sample.tree 1%positive
              ["model::Person"; "model::gone"; "model::hello"]
              Sample.world eq_refl eq_refl) as (Hle & _ & Hin & _).
  split; [exact Hle | exact Hin].
Defined.

Lemma getChildNodes_reads (treeData : TreeData) (node : ref) (w w' : World) :
  isLoading (heap w' node) = isLoading (heap w node) ->
  childrenIds (heap w' node) = childrenIds (heap w node) ->
  eval (getChildNodes treeData node) w' = eval (getChildNodes treeData node) w.
Proof.
  intros Hloading Hids. unfold eval, getChildNodes, mbind, M_bind, read.
  rewrite Hloading, Hids.
  by destruct (isLoading (heap w node)), (childrenIds (heap w node)).
Qed.

(** ** Closing nodes *)

(** What "Collapse all" leaves behind. *)
Lemma collapseTree_world (w : World) :
  let w' := exec collapseTree w in
  (forall node,
      heap w' node
      = set_isSelected false
          (if decide (node ∈ (map_to_list (nodes (treeData w))).*2)
           then set_isOpen false (heap w node) else heap w node))
  /\ selectedNode w' = None
  /\ treeData w' = treeData w.
Proof.
  intros w'.
  destruct (close_entries_run (map_to_list (nodes (treeData w))) w)
    as (Hheap & Htree & _).
  pose proof (collapseTree_run w) as Hrun. cbv zeta in Hrun.
  assert (Hw' : w' = snd (collapseTree w)) by reflexivity.
  rewrite Hrun in Hw'. cbn [snd] in Hw'. rewrite Hw'.
  cbn [heap treeData selectedNode].
  split; [| by split]. intros node. by rewrite Hheap.
Qed.

(** X5.  Closing does not touch what a node's children are: the child nodes
    of every node, under any node collection, are the same after a node is
    compressed, and the same after "Collapse all", as they were before. *)
Theorem closing_keeps_child_nodes (treeData : TreeData)
    (node compressed : ref) (w : World) :
  eval (getChildNodes treeData node) (exec (onNodeCompress compressed) w)
  = eval (getChildNodes treeData node) w
  /\ eval (getChildNodes treeData node) (exec collapseTree w)
     = eval (getChildNodes treeData node) w.
Proof.
  split.
  - unfold exec. rewrite onNodeCompress_run. cbn [snd].
    apply getChildNodes_reads; cbn [heap];
      (destruct (decide (compressed = node)) as [-> | Hne];
       [by rewrite fn_lookup_insert | by rewrite fn_lookup_insert_ne]).
  - destruct (collapseTree_world w) as (Hheap & _).
    apply getChildNodes_reads; rewrite Hheap; by destruct (decide _).
Qed.

(** X6.  "Collapse all" twice leaves every node object, the selection and
    the node collection as "Collapse all" once does. *)
Theorem collapseTree_twice (w : World) (node : ref) :
  let once := exec collapseTree w in
  let twice := exec collapseTree once in
  heap twice node = heap once node
  /\ selectedNode twice = selectedNode once
  /\ treeData twice = treeData once.
Proof.
  intros once twice.
  destruct (collapseTree_world w) as (Hheap & Hselected & Htree).
  destruct (collapseTree_world once) as (Hheap' & Hselected' & Htree').
  fold once in Hheap, Hselected, Htree.
  fold twice in Hheap', Hselected', Htree'.
  split; [| split; congruence].
  rewrite Hheap', Htree, Hheap.
  by repeat destruct (decide _).
Qed.

(** X7.  After "Collapse all", the toggle of a node of the collection that
    is not loading asks for the node to be expanded, whatever the node's
    state was before; it never compresses. *)
Theorem toggle_after_collapseTree_expands
    (onNodeExpand onNodeCompress : ref -> M unit)
    (nodeId : string) (node : ref) (w : World) :
  nodes (treeData w) !! nodeId = Some node ->
  isLoading (heap w node) = false ->
  toggleExpansion node onNodeExpand onNodeCompress (exec collapseTree w)
  = onNodeExpand node (exec collapseTree w).
Proof.
  intros Hlookup Hloading.
  destruct (collapseTree_world w) as (Hheap & _).
  assert (Hin : node ∈ (map_to_list (nodes (treeData w))).*2).
  { apply list_elem_of_fmap. exists (nodeId, node). split; [done |].
    by apply elem_of_map_to_list. }
  specialize (Hheap node). rewrite decide_True in Hheap by done.
  apply toggleExpansion_closed; rewrite Hheap; done.
Qed.

Lemma toggle_after_collapseTree_expands_witness :
  let expand := fun n => call (ExpandNode n) in
  let compress := fun n => call (NotifyUnsupportedFeature "compress") in
  isOpen (heap Sample.world 1%positive) = true
  /\ calls (exec (toggleExpansion 1%positive expand compress)
                 (exec collapseTree Sample.world))
     = [SetSelectedNode None; RefreshTree; ExpandNode 1%positive].
Proof.
  intros expand compress. split; [reflexivity |].
  assert (Hlookup : nodes (treeData Sample.world) !! "model"
                    = Some 1%positive) by (vm_compute; reflexivity).
  unfold exec at 1.
  rewrite (toggle_after_collapseTree_expands
             expand compress "model" 1%positive Sample.world
             Hlookup eq_refl).
  vm_compute. reflexivity.
Defined.

(** ** Refreshing the tree and running tests *)

(** X8.  Refreshing the tree never ends in a rejection: when the tree
    state's [refreshTreeData] fails with an error, the error is handed once
    to [alertIllegalUnhandledError] and the promise given back is fulfilled;
    otherwise the outcome is passed on and nothing is reported. *)
Theorem refreshTree_failure_is_reported (flow : Flow) (w : World) :
  (forall error, eval (refreshTree flow) w <> Rejected error)
  /\ (forall error w1,
        treeState.refreshTreeData flow w = (Rejected error, w1) ->
        eval (refreshTree flow) w = Fulfilled
        /\ calls (exec (refreshTree flow) w)
           = calls w1 ++ [AlertIllegalUnhandledError error]
        /\ heap (exec (refreshTree flow) w) = heap w1
        /\ selectedNode (exec (refreshTree flow) w) = selectedNode w1)
  /\ (forall promise w1,
        (forall error, promise <> Rejected error) ->
        treeState.refreshTreeData flow w = (promise, w1) ->
        refreshTree flow w = (promise, w1)).
Proof.
  destruct (caught_run (treeState.refreshTreeData flow) w)
    as (Hok & Hfail & Hpass).
  split; [exact Hok |]. split; [| exact Hpass].
  intros error w1 Hrun. apply Hfail in Hrun.
  change (refreshTree flow w
          = (Fulfilled,
             exec (applicationStore.alertIllegalUnhandledError error) w1))
    in Hrun.
  unfold eval, exec. by rewrite Hrun.
Qed.

Lemma refreshTree_failure_is_reported_witness :
  eval (refreshTree Sample.failing) Sample.world = Fulfilled
  /\ calls (exec (refreshTree Sample.failing) Sample.world)
     = [RefreshTreeData; AlertIllegalUnhandledError "no server"].
Proof.
  destruct (refreshTree_failure_is_reported Sample.failing Sample.world)
    as (_ & Hfail & _).
  destruct (Hfail "no server" (exec (call RefreshTreeData) Sample.world)
              eq_refl) as (Hresult & Hcalls & _).
  split; [exact Hresult |]. rewrite Hcalls. reflexivity.
Defined.

(** X9.  The "Run tests" entry starts the editor store's [executeTests] on
    the node's [pureId] and does nothing more: when the operation fails, the
    world is as the operation left it, so the failure is not handed to
    [alertIllegalUnhandledError] by the menu. *)
Theorem runTests_failure_is_not_reported
    (flow : Flow) (node : ref) (viewConceptSource : ref -> M unit)
    (w w1 : World) (error : Error) :
  editorStore.executeTests flow (pureId (li_attr (data (heap w node)))) w
  = (Rejected error, w1) ->
  handle flow node viewConceptSource runTests w = (tt, w1)
  /\ calls (exec (handle flow node viewConceptSource runTests) w) = calls w1.
Proof.
  intros Hrun.
  assert (Hhandle : handle flow node viewConceptSource runTests w = (tt, w1)).
  { unfold handle, mbind at 1 2, M_bind at 1 2, read. by rewrite Hrun. }
  split; [exact Hhandle |]. unfold exec. by rewrite Hhandle.
Qed.

Lemma runTests_failure_is_not_reported_witness :
  calls (exec (handle Sample.failing 1%positive viewConceptSource runTests)
              Sample.world)
  = [ExecuteTests "model"].
Proof.
  destruct (runTests_failure_is_not_reported
              Sample.failing 1%positive viewConceptSource Sample.world
              (exec (call (ExecuteTests "model")) Sample.world)
              "no server" eq_refl) as (_ & Hcalls).
  rewrite Hcalls. reflexivity.
Defined.

(** ** View source *)

(** X10.  Viewing the source of a node whose attribute record is an element
    or a property concept attribute makes exactly one call: it reveals the
    attribute's file, asking for the explorer panel to be opened, at a
    coordinate in that same file whose line and column are the attribute's,
    parsed in base ten.  No node object, selection or node collection
    changes. *)
Theorem viewConceptSource_reveals_the_file (node : ref) (w : World)
    (i t file line column : string) :
  li_attr (data (heap w node)) = ElementConceptAttribute i t file line column
  \/ li_attr (data (heap w node))
     = PropertyConceptAttribute i t file line column ->
  let w' := exec (viewConceptSource node) w in
  calls w'
  = calls w
    ++ [RevealPath file true
          {| coordFile := file;
             coordLine := Number_parseInt line 10;
             coordColumn := Number_parseInt column 10 |}]
  /\ heap w' = heap w
  /\ selectedNode w' = selectedNode w
  /\ treeData w' = treeData w.
Proof.
  intros Hattribute w'. subst w'.
  unfold exec, viewConceptSource, mbind, M_bind, read.
  by destruct Hattribute as [-> | ->].
Qed.

Lemma viewConceptSource_reveals_the_file_witness :
  calls (exec (viewConceptSource 2%positive) Sample.world)
  = [RevealPath "/model/person.pure" true
       {| coordFile := "/model/person.pure";
          coordLine := Number_parseInt "3" 10;
          coordColumn := Number_parseInt "7" 10 |}].
Proof.
  exact (proj1 (viewConceptSource_reveals_the_file
                  2%positive Sample.world "model::Person" "Class"
                  "/model/person.pure" "3" "7" (or_introl eq_refl))).
Defined.

(** ** Drawing *)

(** X11.  A node container is never drawn with both highlight classes: it
    has the selected class exactly when the node is selected, and the
    selected-from-context-menu class exactly when the node is not selected
    and its context menu is open: it gets it when the menu opens on a node
    that is not selected and loses it when the menu closes.  The two base
    classes are always there. *)
Theorem container_highlight_classes (n : ConceptTreeNode)
    (isSelectedFromContextMenu : bool) :
  let selected := "explorer__package-tree__node__container--selected" in
  let fromMenu :=
    "explorer__package-tree__node__container--selected-from-context-menu" in
  let classes := containerClassName n isSelectedFromContextMenu in
  (In selected classes <-> isSelected n = true)
  /\ (In fromMenu classes
      <-> isSelected n = false /\ isSelectedFromContextMenu = true)
  /\ ~ (In selected classes /\ In fromMenu classes)
  /\ ~ In fromMenu
         (containerClassName n (onContextMenuClose isSelectedFromContextMenu))
  /\ (In fromMenu
         (containerClassName n (onContextMenuOpen isSelectedFromContextMenu))
      <-> isSelected n = false)
  /\ In "tree-view__node__container" classes
  /\ In "explorer__package-tree__node__container" classes.
Proof.
  unfold containerClassName, clsx, onContextMenuClose, onContextMenuOpen.
  destruct (isSelected n), isSelectedFromContextMenu; simpl;
    intuition (try discriminate; try congruence).
Qed.

(** X12.  The expand area of a node container is one [div].  It shows the
    spinner exactly when the node is loading, and it carries the toggle
    handler exactly when the node is not loading.  A chevron is shown only
    for an expandable node that is not loading: down when the node is open,
    right when it is closed. *)
Theorem expand_area_is_one_div (ConceptType : ConceptType.t)
    (n : ConceptTreeNode) :
  exists area,
    expandArea ConceptType n = [area]
    /\ (icon area = FaCircleNotch <-> isLoading n = true)
    /\ togglesOnClick area = negb (isLoading n)
    /\ (icon area = FaChevronDown
        <-> isLoading n = false /\ isExpandable ConceptType n = true
            /\ isOpen n = true)
    /\ (icon area = FaChevronRight
        <-> isLoading n = false /\ isExpandable ConceptType n = true
            /\ isOpen n = false)
    /\ (icon area = EmptyDiv
        <-> isLoading n = false /\ isExpandable ConceptType n = false).
Proof.
  unfold expandArea.
  destruct (isLoading n), (isExpandable ConceptType n), (isOpen n); simpl;
    eexists; (split; [reflexivity |]); simpl;
    intuition (try discriminate; try congruence).
Qed.

(** X13.  In the explorer panel the tree is drawn exactly when the initial
    load has succeeded, and a status message exactly when it has not and
    the status text is a non-empty string, so the two are never drawn
    together; the failure notice is drawn exactly when the load has failed,
    and the loading indicator always comes first. *)
Theorem panel_draws_tree_or_message (loadInitialDataState : ActionState)
    (statusText : option string) :
  let children := panelContent loadInitialDataState statusText in
  (In FileExplorerTree children <-> hasSucceeded loadInitialDataState = true)
  /\ (forall text,
        In (Message text) children
        <-> hasSucceeded loadInitialDataState = false
            /\ statusText = Some text /\ text <> "")
  /\ ~ (In FileExplorerTree children
        /\ exists text, In (Message text) children)
  /\ (forall content,
        In (BlankPanelContent content) children
        <-> hasFailed loadInitialDataState = true
            /\ content = "Failed to build concept tree")
  /\ head children
     = Some (PanelLoadingIndicator (isInProgress loadInitialDataState)).
Proof.
  unfold panelContent, truthy.
  destruct (hasSucceeded loadInitialDataState),
    (hasFailed loadInitialDataState), statusText as [status |];
    try destruct (String.eqb_spec status ""); simpl;
    repeat split; try intros [? | ?]; try intros [? ?];
    repeat match goal with
           | H : _ \/ _ |- _ => destruct H
           | H : _ /\ _ |- _ => destruct H
           | H : exists _, _ |- _ => destruct H
           | H : False |- _ => destruct H
           end;
    simplify_eq; try done; try tauto; try (right; tauto); eauto.
Qed.

(** ** Clicks *)

Section ClickProperties.

Variable node : ref.

Local Abbreviation handled :=
  {| propagationStopped := true; defaultPrevented := true |}.

Lemma bubble_selectNode (onSelect : option (ref -> M unit))
    (outer : list MouseEventHandler) (event : MouseEvent) (w : World) :
  bubble (selectNode_onClick node onSelect :: outer) event w
  = (preventDefault (stopPropagation event),
     exec (selectNode node onSelect) w).
Proof.
  cbn [bubble]. unfold selectNode_onClick, exec, mbind, M_bind.
  by destruct (selectNode node onSelect w) as [[] w1].
Qed.

Lemma clickNode_run (onSelect : option (ref -> M unit)) (w : World) :
  clickNode node onSelect w
  = (handled, exec (selectNode node onSelect) w).
Proof. unfold clickNode. by rewrite bubble_selectNode. Qed.

(** X14.  A click on a node in the explorer's tree selects that node and is
    stopped there: the node object clicked gets its [isSelected] flag, every
    other node object loses it, no other field changes, and the container
    of the node is drawn with the selected class; the explorer's handler
    that clears the selection, on the [div] around the tree, is not run.
    The click is stopped even when the tree view hands the container no
    select handler, and then nothing changes.  A click outside every node
    clears the selection: no node object keeps the flag. *)
Theorem click_on_node_selects_it (w : World) :
  let w' := exec (clickNode node (Some onNodeSelect)) w in
  eval (clickNode node (Some onNodeSelect)) w = handled
  /\ selectedNode w' = Some node
  /\ (forall object,
        heap w' object
        = set_isSelected (bool_decide (object = node)) (heap w object))
  /\ isSelected (heap w' node) = true
  /\ (forall isSelectedFromContextMenu,
        In "explorer__package-tree__node__container--selected"
           (containerClassName (heap w' node) isSelectedFromContextMenu))
  /\ calls w' = calls w ++ [SetSelectedNode (Some node)]
  /\ clickNode node None w = (handled, w)
  /\ selectedNode (exec clickOutside w) = None
  /\ (forall object,
        heap (exec clickOutside w) object
        = set_isSelected false (heap w object))
  /\ calls (exec clickOutside w) = calls w ++ [SetSelectedNode None].
Proof.
  intros w'. subst w'. unfold eval, exec at 1 2 3 4 5.
  rewrite !clickNode_run. cbn [fst snd].
  unfold exec, selectNode, onNodeSelect, treeState.setSelectedNode.
  cbn [snd heap selectedNode calls].
  repeat split.
  - rewrite bool_decide_eq_true_2 by done. done.
  - intros isSelectedFromContextMenu.
    rewrite bool_decide_eq_true_2 by done.
    unfold containerClassName, clsx. cbn [set_isSelected isSelected].
    destruct isSelectedFromContextMenu; simpl; tauto.
Qed.

End ClickProperties.

(** ** Clicks that start asynchronous work *)

Lemma toggleExpansion_of_plain (node : ref)
    (onNodeExpand onNodeCompress : ref -> M unit) :
  toggleExpansion_of (mret tt) node onNodeExpand onNodeCompress
  = toggleExpansion node onNodeExpand onNodeCompress.
Proof. reflexivity. Qed.

Lemma selectNode_of_plain (node : ref)
    (onNodeSelect : option (ref -> M unit)) :
  selectNode_of (mret tt) node onNodeSelect = selectNode node onNodeSelect.
Proof. reflexivity. Qed.

(** The staged expand, run to the end at once, is the explorer's expand on
    the operation run from its call to its settlement. *)
Lemma onNodeExpand_staged_settled (staged : StagedFlow) (node : ref)
    (w : World) :
  (later ← onNodeExpand_staged staged node; later) w
  = innerProps_onNodeExpand (settled staged) node w.
Proof.
  unfold onNodeExpand_staged, innerProps_onNodeExpand, onNodeExpand,
    treeState.expandNode, settled, mbind, M_bind, mret, M_ret.
  destruct (call (ExpandNode node) w) as [[] w1].
  destruct (staged (ExpandNode node) w1) as [rest w2].
  by destruct (rest w2) as [promise w3].
Qed.

Section StagedClickProperties.

Variable node : ref.
Variable onNodeSelect : option (ref -> M Deferred).
Variables onNodeExpand onNodeCompress : ref -> M Deferred.

Local Abbreviation handled :=
  {| propagationStopped := true; defaultPrevented := true |}.

Local Abbreviation toggle :=
  (toggleExpansion_of (mret (mret tt)) node onNodeExpand onNodeCompress).

Local Abbreviation select :=
  (selectNode_of (mret (mret tt)) node onNodeSelect).

Lemma bubble_staged_plain (handler : M Deferred)
    (outer : list StagedHandler) (event : MouseEvent) (w : World) :
  propagationStopped event = false ->
  bubble_staged (plain_staged handler :: outer) event w
  = ((eval (bubble_staged outer event) (exec handler w)).1,
     (eval handler w;;
      (eval (bubble_staged outer event) (exec handler w)).2),
     exec (bubble_staged outer event) (exec handler w)).
Proof.
  intros Hgoing. cbn [bubble_staged].
  unfold plain_staged, eval, exec, mbind, M_bind, mret, M_ret.
  destruct (handler w) as [later w1]. cbn [fst snd]. rewrite Hgoing.
  by destruct (bubble_staged outer event w1) as [[event' later'] w2].
Qed.

Lemma bubble_staged_selectNode (outer : list StagedHandler)
    (event : MouseEvent) (w : World) :
  bubble_staged (selectNode_onClick_staged node onNodeSelect :: outer)
                event w
  = (preventDefault (stopPropagation event), eval select w, exec select w).
Proof.
  cbn [bubble_staged].
  unfold selectNode_onClick_staged, eval, exec, mbind, M_bind.
  by destruct (select w) as [later w1].
Qed.

Lemma clickExpandArea_run (w : World) :
  let click :=
    clickExpandArea node onNodeSelect onNodeExpand onNodeCompress in
  (isLoading (heap w node) = false ->
   click w
   = (handled, (eval toggle w;; eval select (exec toggle w)),
      exec select (exec toggle w)))
  /\ (isLoading (heap w node) = true ->
      click w = (handled, eval select w, exec select w)).
Proof.
  intros click. subst click. split; intros Hloading.
  - unfold clickExpandArea, mbind at 1, M_bind at 1, read.
    rewrite Hloading. cbn [app].
    rewrite bubble_staged_plain by done.
    set (outer := [plain_staged (immediately deselectTreeNode)]).
    set (event := {| propagationStopped := false;
                     defaultPrevented := false |}).
    pose proof (bubble_staged_selectNode outer event (exec toggle w))
      as Hselect.
    unfold eval, exec in Hselect |- *. by rewrite Hselect.
  - unfold clickExpandArea, mbind at 1, M_bind at 1, read.
    rewrite Hloading. cbn [app]. by rewrite bubble_staged_selectNode.
Qed.

End StagedClickProperties.

(** X15.  While a click on the expand area of a node that is not loading is
    handled, the toggle runs its callback up to the callback's return and
    then, the click going on to the container, the node is selected; the
    handler that clears the selection is not run.  What the callbacks leave
    for later is still to come when the click has been handled: the
    toggle's first, then the selection's.  While the node is loading the
    click only selects it.  In the explorer's tree: on a closed node the
    click calls the tree state's expand, runs the first stage of that
    operation and selects the node, and the rest of the operation with the
    report of its failure comes after the click; on an open node the click
    compresses the node, selects it and leaves nothing for later. *)
Theorem click_on_expand_area_toggles_then_selects
    (node : ref) (w : World) :
  (forall (onNodeSelect : option (ref -> M Deferred))
          (onNodeExpand onNodeCompress : ref -> M Deferred),
      let click :=
        clickExpandArea node onNodeSelect onNodeExpand onNodeCompress in
      let toggle :=
        toggleExpansion_of (mret (mret tt)) node
                           onNodeExpand onNodeCompress in
      let select := selectNode_of (mret (mret tt)) node onNodeSelect in
      (isLoading (heap w node) = false ->
       exec click w = exec select (exec toggle w)
       /\ (eval click w).1
          = {| propagationStopped := true; defaultPrevented := true |}
       /\ (eval click w).2
          = (eval toggle w;; eval select (exec toggle w)))
      /\ (isLoading (heap w node) = true ->
          exec click w = exec select w
          /\ (eval click w).1
             = {| propagationStopped := true; defaultPrevented := true |}
          /\ (eval click w).2 = eval select w))
  /\ (forall staged : StagedFlow,
        isLoading (heap w node) = false ->
        let click := explorerClickExpandArea staged node in
        (isOpen (heap w node) = false ->
         let called := exec (call (ExpandNode node)) w in
         let started := exec (staged (ExpandNode node)) called in
         let rest := eval (staged (ExpandNode node)) called in
         exec click w = exec (onNodeSelect node) started
         /\ forall w',
              exec (eval click w).2 w'
              = exec (promise ← rest;
                      catch promise
                            applicationStore.alertIllegalUnhandledError) w')
        /\ (isOpen (heap w node) = true ->
            exec click w
            = exec (onNodeSelect node) (exec (onNodeCompress node) w)
            /\ forall w', (eval click w).2 w' = (tt, w'))).
Proof.
  split.
  - intros onNodeSelect onNodeExpand onNodeCompress click toggle select.
    destruct (clickExpandArea_run node onNodeSelect onNodeExpand
                                  onNodeCompress w) as (Hready & Hbusy).
    split; intros Hloading.
    + unfold eval at 1 2, exec at 1. subst click. by rewrite (Hready Hloading).
    + unfold eval at 1 2, exec at 1. subst click. by rewrite (Hbusy Hloading).
  - intros staged Hloading click.
    destruct (clickExpandArea_run
                node (Some (fun n => immediately (onNodeSelect n)))
                (onNodeExpand_staged staged)
                (fun n => immediately (onNodeCompress n)) w)
      as (Hready & _).
    specialize (Hready Hloading).
    split; intros Hopen.
    + intros called started rest.
      assert (Htoggle :
        toggleExpansion_of (mret (mret tt)) node
          (onNodeExpand_staged staged)
          (fun n => immediately (onNodeCompress n)) w
        = (promise ← rest;
           catch promise applicationStore.alertIllegalUnhandledError;;
           mret tt, started)).
      { unfold toggleExpansion_of, mbind at 1, M_bind at 1, read.
        rewrite Hloading, Hopen. subst rest started called.
        unfold onNodeExpand_staged, eval, exec, mbind at 1 2, M_bind at 1 2.
        destruct (call (ExpandNode node) w) as [[] w0]. cbn [snd].
        by destruct (staged (ExpandNode node) w0) as [rest w1]. }
      subst click. unfold explorerClickExpandArea.
      unfold eval at 1, exec at 1 2. rewrite Hready. cbn [fst snd].
      unfold eval at 1 2, exec at 1 2 3. rewrite Htoggle. cbn [fst snd].
      split; [done |].
      intros w'. unfold exec, selectNode_of, immediately, onNodeSelect,
        treeState.setSelectedNode, mbind, M_bind, mret, M_ret.
      cbn [fst snd]. destruct (rest w') as [promise w''].
      by destruct (catch _ _ w'') as [[] w3].
    + assert (Htoggle :
        toggleExpansion_of (mret (mret tt)) node
          (onNodeExpand_staged staged)
          (fun n => immediately (onNodeCompress n)) w
        = (mret tt, exec (onNodeCompress node) w)).
      { unfold toggleExpansion_of, mbind at 1, M_bind at 1, read.
        by rewrite Hloading, Hopen. }
      subst click. unfold explorerClickExpandArea.
      unfold eval at 1, exec at 1 2. rewrite Hready. cbn [fst snd].
      unfold eval at 1 2, exec at 1 2 3. rewrite Htoggle. cbn [fst snd].
      split; [done |]. intros w'. done.
Qed.

Lemma click_on_expand_area_toggles_then_selects_witness :
  let click := explorerClickExpandArea failing_later 3%positive in
  let handled := exec click Sample.world in
  calls handled = [ExpandNode 3%positive; SetSelectedNode (Some 3%positive)]
  /\ calls (exec (eval click Sample.world).2 handled)
     = [ExpandNode 3%positive; SetSelectedNode (Some 3%positive);
        AlertIllegalUnhandledError "no server"].
Proof.
  intros click handled. subst handled click.
  destruct (click_on_expand_area_toggles_then_selects
              3%positive Sample.world) as (_ & Hexplorer).
  destruct (Hexplorer failing_later eq_refl) as (Hclosed & _).
  destruct (Hclosed eq_refl) as (Hworld & Hlater).
  rewrite Hlater, Hworld. split; reflexivity.
Defined.

(** ** Toggling twice *)

(** X16.  In the explorer, the toggle of an open node that is not loading
    compresses it, with no call but the request to draw the tree again; a
    second toggle then does not simply reopen the node: it asks the tree
    state to expand it. *)
Theorem toggle_twice_compresses_then_expands
    (flow : Flow) (node : ref) (w : World) :
  isLoading (heap w node) = false ->
  isOpen (heap w node) = true ->
  let toggle :=
    toggleExpansion node (innerProps_onNodeExpand flow) onNodeCompress in
  let w1 := exec toggle w in
  isOpen (heap w1 node) = false
  /\ childrenIds (heap w1 node) = childrenIds (heap w node)
  /\ calls w1 = calls w ++ [RefreshTree]
  /\ toggle w1 = innerProps_onNodeExpand flow node w1.
Proof.
  intros Hloading Hopen toggle w1.
  assert (Hw1 : w1 = exec (onNodeCompress node) w).
  { subst w1 toggle. unfold exec. by rewrite toggleExpansion_open. }
  assert (Hnode : heap w1 node = set_isOpen false (heap w node)).
  { rewrite Hw1. unfold exec. rewrite onNodeCompress_run. simpl.
    by rewrite fn_lookup_insert. }
  split; [by rewrite Hnode |]. split; [by rewrite Hnode |].
  split; [by rewrite Hw1 |].
  subst toggle. apply toggleExpansion_closed; by rewrite Hnode.
Qed.

Lemma toggle_twice_compresses_then_expands_witness :
  let toggle :=
    toggleExpansion 1%positive (innerProps_onNodeExpand Sample.failing)
                    onNodeCompress in
  calls (exec toggle Sample.world) = [RefreshTree]
  /\ calls (exec toggle (exec toggle Sample.world))
     = [RefreshTree; ExpandNode 1%positive;
        AlertIllegalUnhandledError "no server"].
Proof.
  intros toggle. subst toggle.
  destruct (toggle_twice_compresses_then_expands
              Sample.failing 1%positive Sample.world eq_refl eq_refl)
    as (_ & _ & Hcalls & Hagain).
  split; [exact Hcalls |].
  unfold exec at 1. rewrite Hagain.
  vm_compute. reflexivity.
Defined.
